(** * File Generator - Exponential Growth: a Rocq model of [main.py]

    The script creates batches of files filled with random bytes and doubles
    both the number of files and the size of each file after every batch.
    This development embeds the three functions of the script,
    [create_file], [format_size] and [main], and states the properties of
    the program over that embedding.

    Layout: Part I is the model (numbers and text, binary64 floats, the
    process state and its monad, then the three functions). Part II holds
    the properties of the three functions and of the batch loop, Part III
    those of whole runs: the disk, the calls, the output, the exceptions. *)

From Stdlib Require Import ZArith Lia List Bool Decimal DecimalString DecimalFacts
  DecimalPos DecimalN.
From Stdlib Require Import Ascii String Floats.SpecFloat.
From stdpp Require Import base strings list gmap.

Local Open Scope Z_scope.

(* ===================================================================== *)
(** * Part I.  The model                                                  *)
(* ===================================================================== *)

(** ** Text: decimal rendering of Python integers *)

Module Text.

(** The newline character, as in the Python literal ["\n"]. *)
Definition nl : string := String (Ascii.ascii_of_nat 10) "".

(** [s * n] for a string [s] and a count [n]: ["=" * 60]. *)
Fixpoint repeat_string (s : string) (n : nat) : string :=
  match n with
  | O => ""
  | S k => s +:+ repeat_string s k
  end.

(** Decimal digits of a natural number, most significant first, with
    ["0"] for zero. *)
Definition digits (n : N) : uint := N.to_uint n.

(** Left padding with zeros up to [width] digits; numbers that are
    already wider are left alone. *)
Definition zero_pad (width : nat) (d : uint) : uint :=
  Nat.iter (width - nb_digits d)%nat D0 d.

(** [str(z)], also the rendering of [{z}] inside an f-string. *)
Definition str (z : Z) : string :=
  if z <? 0
  then "-" +:+ NilEmpty.string_of_uint (digits (Z.to_N (- z)))
  else NilEmpty.string_of_uint (digits (Z.to_N z)).

(** [format(z, "0{width}d")]: zero padding is sign aware, the sign
    counts as one column of the width. *)
Definition zfill (width : nat) (z : Z) : string :=
  if z <? 0
  then "-" +:+ NilEmpty.string_of_uint (zero_pad (width - 1) (digits (Z.to_N (- z))))
  else NilEmpty.string_of_uint (zero_pad width (digits (Z.to_N z))).

(** Insertion of a comma before every group of three digits, counted
    from the right. *)
Fixpoint group3 (s : string) : string :=
  match s with
  | EmptyString => EmptyString
  | String c rest =>
      let n := String.length rest in
      if (negb (n =? 0)%nat && (n mod 3 =? 0)%nat)%bool
      then String c ("," +:+ group3 rest)
      else String c (group3 rest)
  end.

(** [format(z, ",")], the rendering of [{z:,}]. *)
Definition str_commas (z : Z) : string :=
  if z <? 0
  then "-" +:+ group3 (NilEmpty.string_of_uint (digits (Z.to_N (- z))))
  else group3 (NilEmpty.string_of_uint (digits (Z.to_N z))).

(** Whether a string ends with the character [c]. *)
Fixpoint ends_with (c : Ascii.ascii) (s : string) : bool :=
  match s with
  | EmptyString => false
  | String a EmptyString => bool_decide (a = c)
  | String _ rest => ends_with c rest
  end.

Definition starts_with (c : Ascii.ascii) (s : string) : bool :=
  match s with
  | String a _ => bool_decide (a = c)
  | EmptyString => false
  end.

(** [os.path.join(a, b)] on a POSIX system, for two components. *)
Definition path_join (a b : string) : string :=
  if starts_with "/"%char b then b
  else if (bool_decide (a = "") || ends_with "/"%char a)%bool then a +:+ b
  else a +:+ "/" +:+ b.

End Text.

(** ** Exceptions and results *)

(** The exceptions the script can meet.  [KeyboardInterrupt] is a
    [BaseException] that is not an [Exception]; the others are
    subclasses of [Exception]. *)
Inductive exn : Type :=
| KeyboardInterrupt
| OSError (msg : string)
| OverflowError (msg : string)
| ValueError (msg : string).

Definition is_Exception (e : exn) : bool :=
  match e with
  | KeyboardInterrupt => false
  | OSError _ | OverflowError _ | ValueError _ => true
  end.

(** [str(e)], the text an f-string shows for [{e}]. *)
Definition exn_text (e : exn) : string :=
  match e with
  | KeyboardInterrupt => ""
  | OSError msg | OverflowError msg | ValueError msg => msg
  end.

(** A pure computation that may raise. *)
Inductive except (A : Type) : Type :=
| Val (a : A)
| Exc (e : exn).
Arguments Val {A} a.
Arguments Exc {A} e.

Definition except_bind {A B} (x : except A) (k : A -> except B) : except B :=
  match x with
  | Val a => k a
  | Exc e => Exc e
  end.

(** ** Binary64 floating point, as Python's [float] *)

Module Float.

Definition prec : Z := 53.
Definition emax : Z := 1024.

Definition div : spec_float -> spec_float -> spec_float := SFdiv prec emax.
Definition sub : spec_float -> spec_float -> spec_float := SFsub prec emax.
Definition ltb : spec_float -> spec_float -> bool := SFltb.

(** Nearest binary64 value of an integer, ties to even; an integer
    beyond the largest finite float comes out as an infinity. *)
Definition of_Z (z : Z) : spec_float := binary_normalize prec emax z 0 false.

(** [float(z)] for a Python integer: conversion raises [OverflowError]
    instead of producing an infinity. *)
Definition of_int (z : Z) : except spec_float :=
  match of_Z z with
  | S754_infinity _ => Exc (OverflowError "int too large to convert to float")
  | x => Val x
  end.

(** The literal [1024.0]. *)
Definition f1024 : spec_float := S754_finite false 4503599627370496 (-42).

(** Quotient of [num] by [den > 0] rounded to the nearest integer, ties
    to the even one. *)
Definition round_half_even (num den : Z) : Z :=
  let q := num / den in
  let r := num mod den in
  match 2 * r ?= den with
  | Lt => q
  | Gt => q + 1
  | Eq => if Z.even q then q else q + 1
  end.

(** [m * 2^e] expressed in hundredths, correctly rounded. *)
Definition hundredths (m : positive) (e : Z) : Z :=
  if 0 <=? e
  then Zpos m * 2 ^ e * 100
  else round_half_even (Zpos m * 100) (2 ^ (- e)).

Definition sign_text (s : bool) : string := if s then "-" else "".

(** [format(x, ".2f")]: the exact value of the float rounded to two
    decimals, ties to even. *)
Definition fmt_2f (x : spec_float) : string :=
  match x with
  | S754_nan => "nan"
  | S754_infinity s => sign_text s +:+ "inf"
  | S754_zero s => sign_text s +:+ "0.00"
  | S754_finite s m e =>
      let h := hundredths m e in
      sign_text s +:+ Text.str (h / 100) +:+ "."
        +:+ NilEmpty.string_of_uint (Text.zero_pad 2 (Text.digits (Z.to_N (h mod 100))))
  end.

End Float.

(** ** [format_size] *)

(** A Python number: [format_size] receives an [int] and rebinds its
    parameter to a [float] at the first division. *)
Inductive num : Type :=
| PyInt (z : Z)
| PyFloat (x : spec_float).

(** [v < 1024.0].  An [int] is compared with a [float] by value. *)
Definition lt_1024 (v : num) : bool :=
  match v with
  | PyInt z => z <? 1024
  | PyFloat x => Float.ltb x Float.f1024
  end.

(** [v / 1024.0].  An [int] operand is converted to [float] first. *)
Definition div_1024 (v : num) : except num :=
  match v with
  | PyInt z => except_bind (Float.of_int z) (fun x => Val (PyFloat (Float.div x Float.f1024)))
  | PyFloat x => Val (PyFloat (Float.div x Float.f1024))
  end.

(** [f"{v:.2f}"].  An [int] is converted to [float] first. *)
Definition fmt_2f (v : num) : except string :=
  match v with
  | PyInt z => except_bind (Float.of_int z) (fun x => Val (Float.fmt_2f x))
  | PyFloat x => Val (Float.fmt_2f x)
  end.

Definition units : list string := ["B"; "KB"; "MB"; "GB"; "TB"].

(** The [for unit in [...]] loop of [format_size], with the statement
    after the loop as the case of the exhausted list. *)
Fixpoint format_size_from (us : list string) (bytes_size : num) : except string :=
  match us with
  | [] => except_bind (fmt_2f bytes_size) (fun s => Val (s +:+ " PB"))
  | unit :: rest =>
      if lt_1024 bytes_size
      then except_bind (fmt_2f bytes_size) (fun s => Val (s +:+ " " +:+ unit))
      else except_bind (div_1024 bytes_size) (format_size_from rest)
  end.

Definition format_size (bytes_size : Z) : except string :=
  format_size_from units (PyInt bytes_size).

(** ** The process and its environment *)

(** What the outside world answers when the process makes a call that
    can block or fail: the call goes through, the user presses Ctrl+C
    while it runs, or the operating system reports an error. *)
Inductive signal : Type :=
| Proceed
| Interrupt
| Fault (msg : string).

(** The environment of one run.  The calls that can block or fail (the
    creation of the directory, the opening of a file, a write, a
    reading of the clock, a pause) are numbered in the order in which
    the process makes them: [verdict k] is the fate of call number [k],
    [wallclock k] is what [time.time()] returns when it is call number
    [k] and goes through, and [entropy i] is byte number [i] of the
    random source behind [os.urandom]. *)
Record env : Type := Env {
  verdict : nat -> signal;
  wallclock : nat -> spec_float;
  entropy : N -> Byte.byte
}.

(** The calls that act on the file system or suspend the process, as
    they are attempted: the entries of the log of a run. *)
Inductive syscall : Type :=
| SysMkdir (path : string)
| SysOpen (path : string)
| SysWrite (path : string) (len : nat)
| SysSleep (seconds : Z).

(** The local variables of [main]. *)
Record run_state : Type := RunState {
  num_files : Z;
  file_size : Z;
  batch : Z;
  total_files : Z
}.

(** The state of the process: the regular files on disk, by path, with
    their contents (directories are not part of it: the creation of the
    output directory shows in the log of calls), the arguments of the
    [print] calls so far (oldest first), the calls attempted so far
    (oldest first), the number of the next call, the number of random
    bytes drawn, and the variables of [main]. *)
Record proc : Type := Proc {
  disk : gmap string (list Byte.byte);
  stdout : list string;
  calls : list syscall;
  clock : nat;
  drawn : N;
  vars : run_state
}.

(** The outcome of a computation: a value, an exception, or the loop
    budget of the model ran out while the code was still running. *)
Inductive result (A : Type) : Type :=
| Ret (a : A)
| Raise (e : exn)
| OutOfGas.
Arguments Ret {A} a.
Arguments Raise {A} e.
Arguments OutOfGas {A}.

Definition io (A : Type) : Type := proc -> proc * result A.

Definition io_ret {A} (a : A) : io A := fun p => (p, Ret a).

Definition io_bind {A B} (k : A -> io B) (m : io A) : io B :=
  fun p =>
    match m p with
    | (p', Ret a) => k a p'
    | (p', Raise e) => (p', Raise e)
    | (p', OutOfGas) => (p', OutOfGas)
    end.

#[global] Instance io_mret : MRet io := @io_ret.
#[global] Instance io_mbind : MBind io := @io_bind.

Definition raise {A} (e : exn) : io A := fun p => (p, Raise e).
Definition out_of_gas {A} : io A := fun p => (p, OutOfGas).

(** A pure computation run inside the process. *)
Definition lift {A} (x : except A) : io A :=
  match x with
  | Val a => mret a
  | Exc e => raise e
  end.

(** [try: body  except ...: handler].  The handler decides by itself
    which exceptions it lets through. *)
Definition try_except {A} (body : io A) (handler : exn -> io A) : io A :=
  fun p =>
    match body p with
    | (p', Raise e) => handler e p'
    | other => other
    end.

(** [for i in range(n): body i], with [i] running over [from], [from+1],
    ..., [from+n-1]. *)
Fixpoint for_range (from : Z) (n : nat) (body : Z -> io unit) : io unit :=
  match n with
  | O => mret tt
  | S k => body from ;; for_range (from + 1) k body
  end.

(** The disk after a call that went through. *)
Definition set_file (path : string) (content : list Byte.byte) : io unit :=
  fun p =>
    (Proc (<[path := content]> (disk p)) (stdout p) (calls p) (clock p) (drawn p) (vars p),
     Ret tt).

Definition read_file (path : string) : io (list Byte.byte) :=
  fun p => (p, Ret (default [] (disk p !! path))).

Definition get_vars : io run_state := fun p => (p, Ret (vars p)).

Definition set_vars (v : run_state) : io unit :=
  fun p => (Proc (disk p) (stdout p) (calls p) (clock p) (drawn p) v, Ret tt).

(** [print(line)].  The standard output is taken to accept every
    line: what the script does when its output cannot be written is
    outside the model. *)
Definition print (line : string) : io unit :=
  fun p => (Proc (disk p) (stdout p ++ [line]) (calls p) (clock p) (drawn p) (vars p), Ret tt).

Section Primitives.

Variable E : env.

(** A call that can block or fail: it is logged, takes the next
    number, and ends as the environment says. *)
Definition sys (c : syscall) : io unit :=
  fun p =>
    let p' := Proc (disk p) (stdout p) (calls p ++ [c]) (S (clock p)) (drawn p) (vars p) in
    match verdict E (clock p) with
    | Proceed => (p', Ret tt)
    | Interrupt => (p', Raise KeyboardInterrupt)
    | Fault msg => (p', Raise (OSError msg))
    end.

(** [Path(path).mkdir(exist_ok=True)]: the call is logged and ends as
    the environment says. *)
Definition mkdir (path : string) : io unit := sys (SysMkdir path).

(** [time.sleep(seconds)]: a negative length is refused before any
    pause is attempted. *)
Definition sleep (seconds : Z) : io unit :=
  if seconds <? 0 then raise (ValueError "sleep length must be non-negative")
  else sys (SysSleep seconds).

(** [time.time()]: the call takes the next number and ends as the
    environment says, like the others (Ctrl+C can arrive while it runs,
    and the interpreter raises [OSError] when the system clock cannot be
    read); it touches nothing outside the process, so the log of calls
    does not list it. *)
Definition time_time : io spec_float :=
  fun p =>
    let p' := Proc (disk p) (stdout p) (calls p) (S (clock p)) (drawn p) (vars p) in
    match verdict E (clock p) with
    | Proceed => (p', Ret (wallclock E (clock p)))
    | Interrupt => (p', Raise KeyboardInterrupt)
    | Fault msg => (p', Raise (OSError msg))
    end.

(** [open(path, 'wb')]: the file exists afterwards and is empty. *)
Definition open_wb (path : string) : io unit :=
  sys (SysOpen path) ;;
  set_file path [].

(** [f.write(data)] on the file opened at [path]: on success the
    data is appended; a failed write leaves the file as it was. *)
Definition write (path : string) (data : list Byte.byte) : io unit :=
  sys (SysWrite path (length data)) ;;
  old ← read_file path ;
  set_file path (old ++ data).

(** The [n] bytes of the random source from position [i] on. *)
Fixpoint draw (i : N) (n : nat) : list Byte.byte :=
  match n with
  | O => []
  | S k => entropy E i :: draw (N.succ i) k
  end.

(** [os.urandom(n)]: the next [n] bytes of the random source. *)
Definition urandom (n : Z) : io (list Byte.byte) :=
  if n <? 0 then raise (ValueError "negative argument not allowed")
  else
    fun p =>
      (Proc (disk p) (stdout p) (calls p) (clock p) (drawn p + Z.to_N n)%N (vars p),
       Ret (draw (drawn p) (Z.to_nat n))).

(** ** [create_file] *)

(** The [while remaining > 0] loop.  [gas] bounds the number of
    iterations the model follows. *)
Fixpoint write_loop (gas : nat) (f : string) (chunk_size remaining : Z) : io unit :=
  if remaining >? 0 then
    match gas with
    | O => out_of_gas
    | S gas' =>
        let write_size := Z.min chunk_size remaining in
        data ← urandom write_size ;
        write f data ;;
        write_loop gas' f chunk_size (remaining - write_size)
    end
  else mret tt.

Definition create_file (gas : nat) (filepath : string) (size_bytes : Z) : io unit :=
  open_wb filepath ;;
  let chunk_size := Z.min size_bytes (1024 * 1024) in
  let remaining := size_bytes in
  write_loop gas filepath chunk_size remaining.

End Primitives.

(** ** [main] *)

(** The constants at the top of the script.  The delay is a number of
    seconds that [time.sleep] accepts, that is, not a negative one. *)
Record config : Type := Config {
  INITIAL_FILES : Z;
  INITIAL_FILE_SIZE : Z;
  OUTPUT_DIR : string;
  DELAY_SECONDS : N
}.

(** Their values in the script. *)
Definition settings : config :=
  {| INITIAL_FILES := 5;
     INITIAL_FILE_SIZE := 1024;
     OUTPUT_DIR := "generated_files";
     DELAY_SECONDS := 2%N |}.

(** ["=" * 60]. *)
Definition rule : string := Text.repeat_string "=" 60.

(** [f"batch_{batch:04d}_file_{i:06d}.dat"]. *)
Definition file_name (batch i : Z) : string :=
  "batch_" +:+ Text.zfill 4 batch +:+ "_file_" +:+ Text.zfill 6 i +:+ ".dat".

(** The check mark of the completion line, U+2713 in UTF-8. *)
Definition check_mark : string :=
  String (ascii_of_nat 226) (String (ascii_of_nat 156) (String (ascii_of_nat 147) "")).

(** [os.path.join(OUTPUT_DIR, filename)] for that name. *)
Definition file_path (dir : string) (batch i : Z) : string :=
  Text.path_join dir (file_name batch i).

(** The texts printed by [main], as functions of the values they show. *)
Definition batch_line (v : run_state) (size : string) : string :=
  "Batch " +:+ Text.str (batch v) +:+ ": Creating " +:+ Text.str (num_files v)
    +:+ " files of " +:+ size +:+ " each...".

Definition created_line (v : run_state) (elapsed : spec_float) : string :=
  "  " +:+ check_mark +:+ " Created " +:+ Text.str (num_files v) +:+ " files in "
    +:+ Float.fmt_2f elapsed +:+ "s".

Definition totals_line (v : run_state) (size : string) : string :=
  "  Total files: " +:+ Text.str_commas (total_files v) +:+ " | Total size: " +:+ size.

Definition final_stats_line (v : run_state) : string :=
  "Final stats: " +:+ Text.str_commas (total_files v) +:+ " files created".

Definition error_line (e : exn) : string :=
  Text.nl +:+ "Error occurred: " +:+ exn_text e.

Definition completed_line (v : run_state) : string :=
  "Completed " +:+ Text.str (batch v) +:+ " batches with "
    +:+ Text.str_commas (total_files v) +:+ " files".

Definition next_batch (v : run_state) : run_state :=
  RunState (num_files v) (file_size v) (batch v + 1) (total_files v).

Definition count_batch (v : run_state) : run_state :=
  RunState (num_files v) (file_size v) (batch v) (total_files v + num_files v).

Definition double (v : run_state) : run_state :=
  RunState (num_files v * 2) (file_size v * 2) (batch v) (total_files v).

Section Main.

Variable E : env.
Variable cfg : config.

(** Lines 40 to 50: the output directory and the banner. *)
Definition startup : io unit :=
  mkdir E (OUTPUT_DIR cfg) ;;
  print rule ;;
  print "FILE GENERATOR - EXPONENTIAL GROWTH" ;;
  print rule ;;
  print ("Output directory: " +:+ OUTPUT_DIR cfg) ;;
  print ("Initial files: " +:+ Text.str (INITIAL_FILES cfg)) ;;
  size ← lift (format_size (INITIAL_FILE_SIZE cfg)) ;
  print ("Initial size: " +:+ size) ;;
  print "Press Ctrl+C to stop" ;;
  print rule ;;
  print "".

(** Lines 53 to 56. *)
Definition initial : run_state :=
  {| num_files := INITIAL_FILES cfg;
     file_size := INITIAL_FILE_SIZE cfg;
     batch := 0;
     total_files := 0 |}.

(** Lines 65 to 68, one turn of the [for] loop. *)
Definition make_file (gas : nat) (i : Z) : io unit :=
  v ← get_vars ;
  let filepath := file_path (OUTPUT_DIR cfg) (batch v) i in
  create_file E gas filepath (file_size v).

(** Lines 60 to 83, one turn of the [while True] loop. *)
Definition loop_body (gas : nat) : io unit :=
  v ← get_vars ;
  set_vars (next_batch v) ;;
  v ← get_vars ;
  size ← lift (format_size (file_size v)) ;
  print (batch_line v size) ;;
  start_time ← time_time E ;
  for_range 0 (Z.to_nat (num_files v)) (make_file gas) ;;
  now ← time_time E ;
  let elapsed := Float.sub now start_time in
  v ← get_vars ;
  set_vars (count_batch v) ;;
  v ← get_vars ;
  let total_size := total_files v * file_size v in
  print (created_line v elapsed) ;;
  size ← lift (format_size total_size) ;
  print (totals_line v size) ;;
  print "" ;;
  set_vars (double v) ;;
  sleep E (Z.of_N (DELAY_SECONDS cfg)).

(** The first [n] turns of the [while True] loop. *)
Fixpoint batches (gas : nat) (n : nat) : io unit :=
  match n with
  | O => mret tt
  | S k => loop_body gas ;; batches gas k
  end.

(** [while True: ...], followed for [fuel] turns. *)
Definition while_True (gas fuel : nat) : io unit :=
  batches gas fuel ;; out_of_gas.

(** Lines 86 to 89. *)
Definition on_interrupt : io unit :=
  v ← get_vars ;
  print (Text.nl +:+ rule) ;;
  print "Stopped by user" ;;
  print (final_stats_line v) ;;
  print rule.

(** Lines 91 to 92. *)
Definition on_error (e : exn) : io unit :=
  v ← get_vars ;
  print (error_line e) ;;
  print (completed_line v).

(** The two [except] clauses, tried in their order. *)
Definition handlers (e : exn) : io unit :=
  match e with
  | KeyboardInterrupt => on_interrupt
  | _ => if is_Exception e then on_error e else raise e
  end.

Definition main (gas fuel : nat) : io unit :=
  startup ;;
  set_vars initial ;;
  try_except (while_True gas fuel) handlers.

End Main.

(** The process before [main] starts, on a disk [d]. *)
Definition boot (d : gmap string (list Byte.byte)) : proc :=
  {| disk := d; stdout := []; calls := []; clock := 0; drawn := 0;
     vars := RunState 0 0 0 0 |}.

(** The exit status of the interpreter after [if __name__ == "__main__":
    main()]: 0 when [main] returns, 130 when a [KeyboardInterrupt]
    escapes it, 1 when another exception does; none while it runs. *)
Definition exit_status (r : result unit) : option Z :=
  match r with
  | Ret _ => Some 0
  | Raise KeyboardInterrupt => Some 130
  | Raise _ => Some 1
  | OutOfGas => None
  end.

(** ** Environments and starting points used in the examples *)

(** A clock that advances by one second per call. *)
Definition steady_clock (k : nat) : spec_float := Float.of_Z (1700000000 + Z.of_nat k).

(** A fixed sequence of bytes standing for the random source. *)
Definition dice (i : N) : Byte.byte :=
  default Byte.x00 (Byte.of_N ((i * 37 + 11) mod 256)%N).

(** Nothing ever goes wrong. *)
Definition quiet : env := Env (fun _ => Proceed) steady_clock dice.

(** Call number [k] meets [s], every other call goes through. *)
Definition strike (k : nat) (s : signal) : env :=
  Env (fun i => if (i =? k)%nat then s else Proceed) steady_clock dice.

(** The process at the top of the loop, before the first batch, on an
    empty disk and with nothing printed yet. *)
Definition at_loop_entry (cfg : config) : proc :=
  {| disk := ∅; stdout := []; calls := []; clock := 0; drawn := 0;
     vars := initial cfg |}.

(** The process when [main] enters its [try] block: the banner is
    printed and the four variables are set. *)
Definition entered (E : env) (cfg : config) (p : proc) : proc :=
  fst ((startup E cfg ;; set_vars (initial cfg)) p).

(** The four prints of the interrupt handler, for a total of files. *)
Definition interrupt_block (v : run_state) : list string :=
  [Text.nl +:+ rule; "Stopped by user"; final_stats_line v; rule].

(** The two prints of the error handler. *)
Definition error_block (e : exn) (v : run_state) : list string :=
  [error_line e; completed_line v].

(** ** Vocabulary of the statements *)

(** Every character of a string satisfies [ok]. *)
Fixpoint all_chars (ok : ascii -> bool) (s : string) : bool :=
  match s with
  | EmptyString => true
  | String a rest => ok a && all_chars ok rest
  end.

(** The characters [zfill] can produce. *)
Definition numeric (a : ascii) : bool :=
  let n := nat_of_ascii a in
  ((48 <=? n)%nat && (n <=? 57)%nat) || (n =? 45)%nat.

(** [needle] occurs somewhere inside [hay]. *)
Fixpoint occurs (needle hay : string) : bool :=
  String.prefix needle hay ||
  match hay with
  | EmptyString => false
  | String _ rest => occurs needle rest
  end.

(** The value [format_size] holds after [k] divisions by [1024.0]. *)
Fixpoint scaled (v : num) (k : nat) : except num :=
  match k with
  | O => Val v
  | S k' => except_bind (div_1024 v) (fun v' => scaled v' k')
  end.

(** One mebibyte, the bound on a single write. *)
Definition MiB : Z := 1024 * 1024.

(** The sizes of the writes that cover [size] bytes in chunks of
    [chunk] bytes: full chunks, then the remainder when there is one. *)
Definition chunks_of (chunk size : Z) : list Z :=
  repeat chunk (Z.to_nat (size / chunk))
    ++ (if size mod chunk =? 0 then [] else [size mod chunk]).

Definition chunk_plan (size : Z) : list Z := chunks_of MiB size.

(** The environment lets every call from number [k] on go through. *)
Definition calm_from (E : env) (k : nat) : Prop :=
  forall i, (k <= i)%nat -> verdict E i = Proceed.

Definition sumZ (l : list Z) : Z := foldr Z.add 0 l.

(** The number of files batch [k] plans to create, for [k = 1, 2, ...]. *)
Definition planned_files (cfg : config) (k : nat) : Z :=
  INITIAL_FILES cfg * 2 ^ (Z.of_nat k - 1).

Definition planned_size (cfg : config) (k : nat) : Z :=
  INITIAL_FILE_SIZE cfg * 2 ^ (Z.of_nat k - 1).

(** The variables of [main] at the top of the loop once [k] batches
    are complete. *)
Definition reached (cfg : config) (k : nat) : run_state :=
  {| num_files := INITIAL_FILES cfg * 2 ^ Z.of_nat k;
     file_size := INITIAL_FILE_SIZE cfg * 2 ^ Z.of_nat k;
     batch := Z.of_nat k;
     total_files := INITIAL_FILES cfg * (2 ^ Z.of_nat k - 1) |}.

(** [format_size] can show [z]: the conversion to [float] does not
    overflow. *)
Definition shows (z : Z) : bool :=
  match format_size z with
  | Val _ => true
  | Exc _ => false
  end.

(** The total size of the files of the first [k] batches. *)
Definition bytes_written (cfg : config) (k : nat) : Z :=
  sumZ (map (fun j => planned_files cfg j * planned_size cfg j) (seq 1 k)).

(** The number of files of the first [k] batches. *)
Definition files_written (cfg : config) (k : nat) : Z :=
  sumZ (map (planned_files cfg) (seq 1 k)).

(** Batch [j] can run to its end when the environment lets it: the
    two sizes it prints can be shown, and the budget of the model
    covers the chunks of one of its files. *)
Definition batch_feasible (cfg : config) (gas : nat) (j : nat) : bool :=
  (planned_size cfg j <=? Z.of_nat gas * MiB)
  && shows (planned_size cfg j)
  && shows (files_written cfg j * planned_size cfg j).

(** The calls that create a file, and the pauses between batches. *)
Definition is_open (c : syscall) : bool :=
  match c with
  | SysOpen _ => true
  | _ => false
  end.

Definition is_sleep (c : syscall) : bool :=
  match c with
  | SysSleep _ => true
  | _ => false
  end.

(** How many calls of a log satisfy [which]. *)
Definition tally (which : syscall -> bool) (cs : list syscall) : nat :=
  length (List.filter which cs).

(** The number of bytes the writes of a log carry. *)
Definition written (cs : list syscall) : Z :=
  sumZ (map (fun c => match c with SysWrite _ len => Z.of_nat len | _ => 0 end) cs).

(** The four lines a complete batch [j] prints, given the two sizes as
    [format_size] renders them and the elapsed time. *)
Definition batch_report (cfg : config) (j : nat) (size : string) (elapsed : spec_float)
    (total : string) : list string :=
  ["Batch " +:+ Text.str (Z.of_nat j) +:+ ": Creating " +:+ Text.str (planned_files cfg j)
     +:+ " files of " +:+ size +:+ " each...";
   "  " +:+ check_mark +:+ " Created " +:+ Text.str (planned_files cfg j) +:+ " files in "
     +:+ Float.fmt_2f elapsed +:+ "s";
   "  Total files: " +:+ Text.str_commas (files_written cfg j) +:+ " | Total size: " +:+ total;
   ""].

(** The paths opened by the calls of a log, in order. *)
Definition opened (cs : list syscall) : list string :=
  omap (fun c => match c with SysOpen f => Some f | _ => None end) cs.

(** The paths of the files batch [j] plans, in the order of their
    indices. *)
Definition batch_paths (cfg : config) (j : nat) : list string :=
  map (fun i => file_path (OUTPUT_DIR cfg) (Z.of_nat j) (Z.of_nat i))
      (seq 0 (Z.to_nat (planned_files cfg j))).

(** [format_size z] returns the text [s]. *)
Definition shown_as (z : Z) (s : string) : bool :=
  match format_size z with
  | Val t => String.eqb t s
  | Exc _ => false
  end.

(** The text of the only exception [format_size] can raise. *)
Definition too_large : exn := OverflowError "int too large to convert to float".

(** An exception is the doing of the environment at call [k]. *)
Definition injected (E : env) (k : nat) (e : exn) : Prop :=
  (verdict E k = Interrupt /\ e = KeyboardInterrupt) \/
  (exists msg, verdict E k = Fault msg /\ e = OSError msg).



(* ===================================================================== *)
(** * Part II.  Properties                                                *)
(* ===================================================================== *)

(** ** File names *)

Section FileNames.

Lemma of_uint_zero_pad w d : N.of_uint (Text.zero_pad w d) = N.of_uint d.
Proof.
  unfold Text.zero_pad. induction (w - nb_digits d)%nat as [|k IH]; simpl; auto.
Qed.

Lemma padded_digits_inj w w' x y :
  Text.zero_pad w (Text.digits x) = Text.zero_pad w' (Text.digits y) -> x = y.
Proof.
  intros H. apply (f_equal N.of_uint) in H.
  rewrite !of_uint_zero_pad in H. unfold Text.digits in H.
  now rewrite !DecimalN.Unsigned.of_to in H.
Qed.

Lemma string_of_uint_inj d d' :
  NilEmpty.string_of_uint d = NilEmpty.string_of_uint d' -> d = d'.
Proof.
  intros H. apply (f_equal NilEmpty.uint_of_string) in H.
  rewrite !NilEmpty.usu in H. congruence.
Qed.

Lemma string_of_uint_numeric d : all_chars numeric (NilEmpty.string_of_uint d) = true.
Proof. induction d; simpl; auto. Qed.

Lemma string_of_uint_no_sign d s : NilEmpty.string_of_uint d <> String "-" s.
Proof. destruct d; simpl; congruence. Qed.

Lemma zfill_numeric w z : all_chars numeric (Text.zfill w z) = true.
Proof.
  unfold Text.zfill. destruct (z <? 0); simpl; apply string_of_uint_numeric.
Qed.

Lemma zfill_inj w z z' : Text.zfill w z = Text.zfill w z' -> z = z'.
Proof.
  unfold Text.zfill.
  destruct (Z.ltb_spec z 0) as [Hz|Hz], (Z.ltb_spec z' 0) as [Hz'|Hz']; simpl; intros H.
  - injection H as H. apply string_of_uint_inj, padded_digits_inj in H. lia.
  - symmetry in H. now apply string_of_uint_no_sign in H.
  - now apply string_of_uint_no_sign in H.
  - apply string_of_uint_inj, padded_digits_inj in H. lia.
Qed.

(** Two texts made of characters accepted by [ok], each followed by
    a character [c] that [ok] rejects, split in one way only. *)
Lemma split_at_rejected ok c :
  ok c = false ->
  forall s s' r r',
    all_chars ok s = true -> all_chars ok s' = true ->
    s +:+ String c r = s' +:+ String c r' -> s = s' /\ r = r'.
Proof.
  intros Hc. induction s as [|a s IH]; intros [|a' s'] r r'; simpl; intros Hs Hs' Heq.
  - injection Heq as ->. auto.
  - injection Heq as <- _. apply andb_prop in Hs' as [Ha _]. congruence.
  - injection Heq as -> _. apply andb_prop in Hs as [Ha _]. congruence.
  - injection Heq as -> Heq.
    apply andb_prop in Hs as [_ Hs]. apply andb_prop in Hs' as [_ Hs'].
    destruct (IH s' r r' Hs Hs' Heq) as [-> ->]. auto.
Qed.

Lemma file_name_inj b i b' i' :
  file_name b i = file_name b' i' -> b = b' /\ i = i'.
Proof.
  unfold file_name. cbn -[Text.zfill]. intros H. injection H as H.
  apply (split_at_rejected numeric "_" eq_refl) in H as [Hb H];
    try apply zfill_numeric.
  injection H as H.
  apply (split_at_rejected numeric "." eq_refl) in H as [Hi _];
    try apply zfill_numeric.
  split; eapply zfill_inj; eassumption.
Qed.

Lemma file_name_relative b i : Text.starts_with "/" (file_name b i) = false.
Proof. reflexivity. Qed.

Lemma file_path_inj dir b i b' i' :
  file_path dir b i = file_path dir b' i' -> b = b' /\ i = i'.
Proof.
  unfold file_path, Text.path_join. rewrite !file_name_relative.
  destruct (_ || _); intros H; apply file_name_inj.
  - by apply (inj (String.append dir)) in H.
  - by apply (inj (String.append dir)), (inj (String.append "/")) in H.
Qed.

End FileNames.

(** ** Running the primitives *)

Section Runs.

Variable E : env.

Lemma bind_run {A B} (m : io A) (k : A -> io B) p :
  (m ≫= k) p =
  match m p with
  | (p', Ret a) => k a p'
  | (p', Raise e) => (p', Raise e)
  | (p', OutOfGas) => (p', OutOfGas)
  end.
Proof. reflexivity. Qed.

Lemma open_wb_run f p :
  open_wb E f p =
  let q := Proc (disk p) (stdout p) (calls p ++ [SysOpen f]) (S (clock p)) (drawn p) (vars p) in
  match verdict E (clock p) with
  | Proceed =>
      (Proc (<[f := []]> (disk p)) (stdout p) (calls p ++ [SysOpen f]) (S (clock p))
            (drawn p) (vars p), Ret tt)
  | Interrupt => (q, Raise KeyboardInterrupt)
  | Fault msg => (q, Raise (OSError msg))
  end.
Proof.
  unfold open_wb. rewrite bind_run. unfold sys.
  destruct (verdict E (clock p)); reflexivity.
Qed.

Lemma write_run f data p :
  write E f data p =
  let cs := calls p ++ [SysWrite f (length data)] in
  let q := Proc (disk p) (stdout p) cs (S (clock p)) (drawn p) (vars p) in
  match verdict E (clock p) with
  | Proceed =>
      (Proc (<[f := default [] (disk p !! f) ++ data]> (disk p)) (stdout p) cs (S (clock p))
            (drawn p) (vars p), Ret tt)
  | Interrupt => (q, Raise KeyboardInterrupt)
  | Fault msg => (q, Raise (OSError msg))
  end.
Proof.
  unfold write. rewrite bind_run. unfold sys.
  destruct (verdict E (clock p)); reflexivity.
Qed.

Lemma urandom_run n p :
  0 <= n ->
  urandom E n p =
  (Proc (disk p) (stdout p) (calls p) (clock p) (drawn p + Z.to_N n)%N (vars p),
   Ret (draw E (drawn p) (Z.to_nat n))).
Proof.
  intros Hn. unfold urandom. destruct (Z.ltb_spec n 0); [lia | reflexivity].
Qed.

Lemma draw_length i n : length (draw E i n) = n.
Proof. revert i. induction n; intros; simpl; auto. Qed.

Lemma draw_app i a b :
  draw E i (a + b) = draw E i a ++ draw E (i + N.of_nat a)%N b.
Proof.
  revert i. induction a as [|a IH]; intros i; simpl.
  - f_equal. lia.
  - rewrite IH. do 3 f_equal. lia.
Qed.

(** One turn of the chunk loop, when the loop is entered with a
    positive chunk size. *)
Lemma write_loop_turn gas f cs rem p :
  0 < cs -> 0 < rem ->
  write_loop E (S gas) f cs rem p =
  let w := Z.min cs rem in
  let data := draw E (drawn p) (Z.to_nat w) in
  let log := calls p ++ [SysWrite f (Z.to_nat w)] in
  let d := (drawn p + Z.to_N w)%N in
  match verdict E (clock p) with
  | Proceed =>
      write_loop E gas f cs (rem - w)
        (Proc (<[f := default [] (disk p !! f) ++ data]> (disk p)) (stdout p) log
              (S (clock p)) d (vars p))
  | Interrupt =>
      (Proc (disk p) (stdout p) log (S (clock p)) d (vars p), Raise KeyboardInterrupt)
  | Fault msg =>
      (Proc (disk p) (stdout p) log (S (clock p)) d (vars p), Raise (OSError msg))
  end.
Proof.
  intros Hcs Hrem. cbn [write_loop].
  destruct (Z.gtb_spec rem 0) as [_|]; [|lia].
  rewrite bind_run, urandom_run by lia.
  rewrite bind_run, write_run. cbn [clock disk stdout calls drawn vars].
  rewrite draw_length.
  destruct (verdict E (clock p)); reflexivity.
Qed.

Lemma write_loop_done gas f cs rem p :
  rem <= 0 -> write_loop E gas f cs rem p = (p, Ret tt).
Proof.
  intros Hrem. destruct gas; cbn [write_loop];
    destruct (Z.gtb_spec rem 0); (lia || reflexivity).
Qed.

End Runs.

(** ** The chunk loop of [create_file] *)

Section ChunkLoop.

Variable E : env.

Lemma chunks_of_zero cs : chunks_of cs 0 = [].
Proof. unfold chunks_of. rewrite Zdiv_0_l, Zmod_0_l. reflexivity. Qed.

Lemma chunks_of_step cs rem :
  0 < cs -> 0 < rem ->
  chunks_of cs rem = Z.min cs rem :: chunks_of cs (rem - Z.min cs rem).
Proof.
  intros Hcs Hrem. destruct (Z_lt_le_dec cs rem) as [Hbig|Hsmall].
  - rewrite Z.min_l by lia. unfold chunks_of.
    replace (rem - cs) with (rem + (-1) * cs) by lia.
    rewrite Z_div_plus_full, Z_mod_plus_full by lia.
    assert (1 <= rem / cs) by (apply Z.div_le_lower_bound; lia).
    replace (Z.to_nat (rem / cs)) with (S (Z.to_nat (rem / cs + -1))) by lia.
    reflexivity.
  - rewrite Z.min_r, Z.sub_diag, chunks_of_zero by lia.
    unfold chunks_of. destruct (Z.eq_dec rem cs) as [->|Hne].
    + rewrite Z_div_same_full, Z_mod_same_full by lia. reflexivity.
    + rewrite Z.div_small, Z.mod_small by lia.
      destruct (Z.eqb_spec rem 0); [lia | reflexivity].
Qed.

Lemma write_loop_spent f cs rem p :
  0 < rem -> write_loop E 0 f cs rem p = (p, OutOfGas).
Proof.
  intros Hrem. cbn [write_loop]. destruct (Z.gtb_spec rem 0); [reflexivity | lia].
Qed.

(** The skeleton shared by the facts about the loop: induction on the
    budget, then the three ways a turn can end. *)
Ltac by_turns gas cs rem p IH :=
  induction gas as [|gas IH]; intros rem p;
  (destruct (Z_le_gt_dec rem 0) as [Hdone|Hmore];
   [ rewrite write_loop_done by lia
   | first [ rewrite write_loop_spent by lia
           | rewrite write_loop_turn by lia; cbv zeta;
             destruct (verdict E (clock p)) eqn:Hverdict ] ]).

(** The loop touches neither the variables of [main], nor the
    output, nor any file but its own. *)
Lemma write_loop_frame gas f cs :
  0 < cs ->
  forall rem p,
    let p' := fst (write_loop E gas f cs rem p) in
    vars p' = vars p /\ stdout p' = stdout p /\
    forall g, g <> f -> disk p' !! g = disk p !! g.
Proof.
  intros Hcs. by_turns gas cs rem p IH; cbn; auto.
  destruct (IH (rem - Z.min cs rem)
              (Proc (<[f := default [] (disk p !! f) ++ draw E (drawn p) (Z.to_nat (Z.min cs rem))]> (disk p))
                    (stdout p) (calls p ++ [SysWrite f (Z.to_nat (Z.min cs rem))])
                    (S (clock p)) (drawn p + Z.to_N (Z.min cs rem))%N (vars p)))
    as (Hv & Ho & Hd).
  cbn in *. repeat split; auto.
  intros g Hg. rewrite Hd by done. by rewrite lookup_insert_ne.
Qed.

(** The writes the loop attempts: each is positive and at most one
    chunk, and when the loop completes they are the planned ones. *)
Lemma write_loop_calls gas f cs :
  0 < cs ->
  forall rem p,
    0 <= rem ->
    exists ws,
      calls (fst (write_loop E gas f cs rem p))
      = calls p ++ map (fun w => SysWrite f (Z.to_nat w)) ws /\
      Forall (fun w => 0 < w <= cs) ws /\
      (snd (write_loop E gas f cs rem p) = Ret tt -> ws = chunks_of cs rem).
Proof.
  intros Hcs. by_turns gas cs rem p IH; intros Hrem.
  - exists []. cbn. rewrite app_nil_r. replace rem with 0 by lia.
    by rewrite chunks_of_zero.
  - exists []. cbn. rewrite app_nil_r. repeat split; auto. discriminate.
  - exists []. cbn. rewrite app_nil_r. replace rem with 0 by lia.
    by rewrite chunks_of_zero.
  - edestruct (IH (rem - Z.min cs rem)) as (ws & Hcalls & Hall & Hplan); [lia|].
    exists (Z.min cs rem :: ws). rewrite Hcalls. cbn [calls map].
    rewrite <- app_assoc. repeat split; auto.
    + constructor; [lia | done].
    + intros Hret. rewrite chunks_of_step by lia. f_equal. auto.
  - exists [Z.min cs rem]. cbn. repeat split; auto; try discriminate.
    constructor; [lia | constructor].
  - exists [Z.min cs rem]. cbn. repeat split; auto; try discriminate.
    constructor; [lia | constructor].
Qed.

(** When the loop completes, the file has grown by exactly the next
    [rem] bytes of the random source. *)
Lemma write_loop_content gas f cs :
  0 < cs ->
  forall rem p old,
    0 <= rem ->
    disk p !! f = Some old ->
    snd (write_loop E gas f cs rem p) = Ret tt ->
    disk (fst (write_loop E gas f cs rem p)) !! f
    = Some (old ++ draw E (drawn p) (Z.to_nat rem)).
Proof.
  intros Hcs. by_turns gas cs rem p IH; intros old Hrem Hold; cbn; try discriminate.
  - intros _. replace (Z.to_nat rem) with 0%nat by lia. cbn. by rewrite app_nil_r.
  - intros _. replace (Z.to_nat rem) with 0%nat by lia. cbn. by rewrite app_nil_r.
  - intros Hret. erewrite IH; [| lia | cbn; apply lookup_insert_eq | done].
    rewrite Hold. cbn. rewrite <- app_assoc. do 2 f_equal.
    replace (Z.to_nat rem)
      with (Z.to_nat (Z.min cs rem) + Z.to_nat (rem - Z.min cs rem))%nat by lia.
    rewrite draw_app. do 2 f_equal. lia.
Qed.

(** A budget of [gas] turns is enough for [gas] chunks. *)
Lemma write_loop_gas gas f cs :
  0 < cs ->
  forall rem p,
    rem <= Z.of_nat gas * cs ->
    snd (write_loop E gas f cs rem p) <> OutOfGas.
Proof.
  intros Hcs. by_turns gas cs rem p IH; intros Hgas; cbn; try discriminate.
  - nia.
  - apply IH. nia.
Qed.

(** With enough budget and no trouble from the environment the loop
    completes. *)
Lemma write_loop_live gas f cs :
  0 < cs ->
  forall rem p,
    rem <= Z.of_nat gas * cs ->
    calm_from E (clock p) ->
    snd (write_loop E gas f cs rem p) = Ret tt.
Proof.
  intros Hcs. by_turns gas cs rem p IH; intros Hgas Hcalm; cbn; auto.
  - nia.
  - apply IH; [nia|]. intros i Hi. apply Hcalm. cbn in Hi. lia.
  - rewrite Hcalm in Hverdict by lia. discriminate.
  - rewrite Hcalm in Hverdict by lia. discriminate.
Qed.

(** Calls are only ever added: the call counter does not go back. *)
Lemma write_loop_clock gas f cs :
  0 < cs ->
  forall rem p, (clock p <= clock (fst (write_loop E gas f cs rem p)))%nat.
Proof.
  intros Hcs. by_turns gas cs rem p IH; cbn; try lia.
  etrans; [|apply IH]. cbn. lia.
Qed.

End ChunkLoop.

(** ** [create_file] *)

Section CreateFile.

Variable E : env.

Lemma create_file_run gas f size p :
  create_file E gas f size p =
  let q := Proc (disk p) (stdout p) (calls p ++ [SysOpen f]) (S (clock p)) (drawn p) (vars p) in
  match verdict E (clock p) with
  | Proceed =>
      write_loop E gas f (Z.min size MiB) size
        (Proc (<[f := []]> (disk p)) (stdout p) (calls p ++ [SysOpen f]) (S (clock p))
              (drawn p) (vars p))
  | Interrupt => (q, Raise KeyboardInterrupt)
  | Fault msg => (q, Raise (OSError msg))
  end.
Proof.
  unfold create_file. rewrite bind_run, open_wb_run.
  destruct (verdict E (clock p)); reflexivity.
Qed.

Lemma chunk_size_positive size : 0 < size -> 0 < Z.min size MiB.
Proof. unfold MiB. lia. Qed.

Lemma gas_covers size gas :
  0 < size -> size <= Z.of_nat gas * MiB -> size <= Z.of_nat gas * Z.min size MiB.
Proof.
  unfold MiB. intros Hpos Hgas.
  assert (1 <= Z.of_nat gas) by nia.
  destruct (Z.min_spec size (1024 * 1024)) as [[_ ->]|[_ ->]]; nia.
Qed.

Lemma chunks_of_chunk_size size :
  0 <= size -> chunks_of (Z.min size MiB) size = chunk_plan size.
Proof.
  intros Hsize. unfold chunk_plan.
  destruct (Z_le_gt_dec size MiB) as [Hsmall|Hbig]; [|by rewrite Z.min_r by lia].
  rewrite Z.min_l by lia. destruct (Z.eq_dec size 0) as [->|Hpos].
  - by rewrite !chunks_of_zero.
  - assert (0 < MiB) by (unfold MiB; lia).
    rewrite (chunks_of_step size size), (chunks_of_step MiB size) by lia.
    by rewrite Z.min_id, (Z.min_r MiB size), Z.sub_diag by lia.
Qed.

Lemma sumZ_repeat x n : sumZ (repeat x n) = Z.of_nat n * x.
Proof. induction n as [|n IH]; [done|]. cbn [repeat sumZ foldr] in *. unfold sumZ in IH. lia. Qed.

Lemma sumZ_chunk_plan size : 0 <= size -> sumZ (chunk_plan size) = size.
Proof.
  intros Hsize. unfold chunk_plan, chunks_of, sumZ. rewrite foldr_app.
  assert (HM : 0 < MiB) by (unfold MiB; lia).
  pose proof (Z.div_mod size MiB ltac:(lia)) as Hdm.
  pose proof (Z.div_pos size MiB Hsize HM) as Hq.
  assert (Hfold : forall l a, foldr Z.add a l = sumZ l + a).
  { induction l as [|x l IH]; intros a; cbn; [lia|]. rewrite IH. unfold sumZ. lia. }
  rewrite Hfold, sumZ_repeat.
  destruct (Z.eqb_spec (size mod MiB) 0); cbn; lia.
Qed.

(** A call leaves the variables of [main], the output and every
    other file alone. *)
Lemma create_file_frame gas f size p :
  let p' := fst (create_file E gas f size p) in
  vars p' = vars p /\ stdout p' = stdout p /\
  forall g, g <> f -> disk p' !! g = disk p !! g.
Proof.
  rewrite create_file_run. cbv zeta.
  destruct (verdict E (clock p)); cbn; auto.
  destruct (Z_le_gt_dec size 0) as [Hdone|Hmore].
  - rewrite write_loop_done by done. cbn. repeat split; auto.
    intros g Hg. by rewrite lookup_insert_ne.
  - edestruct (write_loop_frame E gas f (Z.min size MiB)) as (Hv & Ho & Hd);
      [apply chunk_size_positive; lia|].
    rewrite Hv, Ho. cbn. repeat split; auto.
    intros g Hg. rewrite Hd by done. cbn. by rewrite lookup_insert_ne.
Qed.

Lemma create_file_clock gas f size p :
  (clock p <= clock (fst (create_file E gas f size p)))%nat.
Proof.
  rewrite create_file_run. cbv zeta.
  destruct (verdict E (clock p)); cbn; try lia.
  destruct (Z_le_gt_dec size 0) as [Hdone|Hmore].
  - rewrite write_loop_done by done. cbn. lia.
  - etrans; [|apply write_loop_clock, chunk_size_positive; lia]. cbn. lia.
Qed.

Lemma create_file_live gas f size p :
  calm_from E (clock p) ->
  size <= Z.of_nat gas * MiB ->
  snd (create_file E gas f size p) = Ret tt.
Proof.
  intros Hcalm Hgas. rewrite create_file_run. cbv zeta.
  rewrite (Hcalm _ (le_n _)).
  destruct (Z_le_gt_dec size 0) as [Hdone|Hmore]; [by rewrite write_loop_done|].
  apply write_loop_live.
  - apply chunk_size_positive; lia.
  - apply gas_covers; [lia | done].
  - intros i Hi. apply Hcalm. cbn in Hi. lia.
Qed.

End CreateFile.

(** C7.  For every size [0 <= size], a call of [create_file] that
    returns leaves at its path a file of exactly [size] bytes (the next
    [size] bytes of the random source); when the environment lets the
    calls through (and the model follows the loop for enough turns)
    the call does return; and for [size = 0] it returns as soon as the
    file can be opened, leaving an empty file. *)
Theorem create_file_exact_size E gas f size p :
  0 <= size ->
  (snd (create_file E gas f size p) = Ret tt ->
   exists content,
     disk (fst (create_file E gas f size p)) !! f = Some content /\
     content = draw E (drawn p) (Z.to_nat size) /\
     Z.of_nat (length content) = size) /\
  (calm_from E (clock p) -> size <= Z.of_nat gas * MiB ->
   snd (create_file E gas f size p) = Ret tt) /\
  (size = 0 -> verdict E (clock p) = Proceed ->
   snd (create_file E gas f size p) = Ret tt /\
   disk (fst (create_file E gas f size p)) !! f = Some []).
Proof.
  intros Hsize. rewrite create_file_run. cbv zeta. split; [|split].
  - destruct (verdict E (clock p)); cbn; try discriminate.
    intros Hret. exists (draw E (drawn p) (Z.to_nat size)).
    rewrite draw_length. repeat split; [|lia].
    destruct (Z.eq_dec size 0) as [->|Hpos].
    + rewrite write_loop_done by done. cbn. apply lookup_insert_eq.
    + assert (Hcs : 0 < Z.min size MiB) by (apply chunk_size_positive; lia).
      rewrite (write_loop_content E gas f _ Hcs size _ [] Hsize);
        [reflexivity | cbn; apply lookup_insert_eq | done].
  - intros Hcalm Hgas. rewrite (Hcalm _ (le_n _)).
    destruct (Z.eq_dec size 0) as [->|Hpos]; [by rewrite write_loop_done|].
    apply write_loop_live.
    + apply chunk_size_positive; lia.
    + apply gas_covers; [lia | done].
    + intros i Hi. apply Hcalm. cbn in Hi. lia.
  - intros -> ->. rewrite write_loop_done by done. cbn. split; [done|].
    apply lookup_insert_eq.
Qed.

Lemma create_file_exact_size_witness :
  0 <= 1024 /\
  exists content,
    disk (fst (create_file quiet 1 "out.dat" 1024 (boot ∅))) !! "out.dat" = Some content /\
    Z.of_nat (length content) = 1024.
Proof.
  split; [lia|].
  destruct (create_file_exact_size quiet 1 "out.dat" 1024 (boot ∅)) as (Hexact & Hlive & _);
    [lia|].
  destruct Hexact as (content & Hfile & _ & Hlen).
  - apply Hlive; [intros i _; reflexivity | unfold MiB; lia].
  - exists content. split; assumption.
Defined.

(** C8.  For every size [0 <= size] the chunk loop ends within
    [ceil(size / 2^20)] turns, whatever the environment does; when the
    environment lets the calls through, the call returns; each write it
    attempts is positive and at most one mebibyte; and when the call
    returns, the writes are [size / 2^20] full chunks followed by the
    remainder if there is one, so that their sizes add up to [size]. *)
Theorem chunk_loop_terminates E gas f size p :
  0 <= size ->
  size <= Z.of_nat gas * MiB ->
  snd (create_file E gas f size p) <> OutOfGas /\
  (calm_from E (clock p) -> snd (create_file E gas f size p) = Ret tt) /\
  exists ws,
    calls (fst (create_file E gas f size p))
    = calls p ++ SysOpen f :: map (fun w => SysWrite f (Z.to_nat w)) ws /\
    Forall (fun w => 0 < w <= MiB) ws /\
    (snd (create_file E gas f size p) = Ret tt ->
     ws = repeat MiB (Z.to_nat (size / MiB))
            ++ (if size mod MiB =? 0 then [] else [size mod MiB]) /\
     sumZ ws = size).
Proof.
  intros Hsize Hgas.
  split; [|split; [intros Hcalm; by apply create_file_live|]].
  - rewrite create_file_run. cbv zeta.
    destruct (verdict E (clock p)); cbn; try discriminate.
    destruct (Z.eq_dec size 0) as [->|Hpos]; [by rewrite write_loop_done|].
    apply write_loop_gas; [apply chunk_size_positive; lia|]. apply gas_covers; [lia | done].
  - rewrite create_file_run. cbv zeta.
    destruct (verdict E (clock p)); cbn;
      [| exists []; repeat split; auto; discriminate ..].
    destruct (Z.eq_dec size 0) as [->|Hpos].
    + rewrite write_loop_done by done. cbn. exists []. repeat split; auto.
    + assert (Hcs : 0 < Z.min size MiB) by (apply chunk_size_positive; lia).
      edestruct (write_loop_calls E gas f (Z.min size MiB) Hcs size)
        as (ws & Hcalls & Hall & Hplan); [done|].
      exists ws. rewrite Hcalls. cbn [calls]. rewrite <- app_assoc.
      split; [reflexivity|]. split.
      * eapply Forall_impl; [exact Hall|]. cbn. intros w Hw. lia.
      * intros Hret. rewrite (Hplan Hret), chunks_of_chunk_size by done.
        split; [reflexivity | by apply sumZ_chunk_plan].
Qed.

Lemma chunk_loop_terminates_witness :
  0 <= 2 * MiB + 1 /\ 2 * MiB + 1 <= Z.of_nat 3 * MiB /\
  snd (create_file quiet 3 "out.dat" (2 * MiB + 1) (boot ∅)) = Ret tt /\
  exists ws,
    calls (fst (create_file quiet 3 "out.dat" (2 * MiB + 1) (boot ∅)))
    = SysOpen "out.dat" :: map (fun w => SysWrite "out.dat" (Z.to_nat w)) ws /\
    ws = [MiB; MiB; 1] /\
    sumZ ws = 2 * MiB + 1.
Proof.
  split; [unfold MiB; lia|]. split; [unfold MiB; lia|].
  destruct (chunk_loop_terminates quiet 3 "out.dat" (2 * MiB + 1) (boot ∅))
    as (_ & Hlive & ws & Hcalls & _ & Hplan); [unfold MiB; lia.. |].
  assert (Hret : snd (create_file quiet 3 "out.dat" (2 * MiB + 1) (boot ∅)) = Ret tt)
    by (apply Hlive; intros i _; reflexivity).
  destruct (Hplan Hret) as [Hws Hsum].
  split; [exact Hret|]. exists ws.
  split; [exact Hcalls|]. split; [|exact Hsum].
  rewrite Hws. vm_compute. reflexivity.
Defined.

(** C10.  With a negative size the chunk loop is not entered: the call
    does what opening the file does and nothing more.  So once the file
    can be opened the call returns, no write is attempted, no random
    byte is drawn, and the file is empty. *)
Theorem negative_size_gives_empty_file E gas f size p :
  size < 0 ->
  create_file E gas f size p = open_wb E f p /\
  (verdict E (clock p) = Proceed ->
   snd (create_file E gas f size p) = Ret tt /\
   disk (fst (create_file E gas f size p)) !! f = Some [] /\
   calls (fst (create_file E gas f size p)) = calls p ++ [SysOpen f] /\
   drawn (fst (create_file E gas f size p)) = drawn p).
Proof.
  intros Hneg. rewrite create_file_run, open_wb_run. cbv zeta.
  destruct (verdict E (clock p)) eqn:Hv; rewrite ?write_loop_done by lia;
    (split; [reflexivity|]); try discriminate.
  intros _. cbn. repeat split. apply lookup_insert_eq.
Qed.

Lemma negative_size_gives_empty_file_witness :
  -5 < 0 /\
  snd (create_file quiet 0 "out.dat" (-5) (boot ∅)) = Ret tt /\
  disk (fst (create_file quiet 0 "out.dat" (-5) (boot ∅))) !! "out.dat" = Some [].
Proof.
  split; [lia|].
  destruct (negative_size_gives_empty_file quiet 0 "out.dat" (-5) (boot ∅)) as [_ H]; [lia|].
  destruct H as (Hret & Hfile & _); [reflexivity|]. split; assumption.
Defined.

(** C9.  The name of a file is a function of the batch number and of
    the index inside the batch, and two different (batch, index) pairs
    never get the same name nor the same path in the output directory;
    hence creating the file of one pair leaves the file of any other
    pair as it was. *)
Theorem file_names_distinct dir b i b' i' :
  b <> b' \/ i <> i' ->
  file_name b i <> file_name b' i' /\
  file_path dir b i <> file_path dir b' i' /\
  forall E gas size p,
    disk (fst (create_file E gas (file_path dir b' i') size p)) !! file_path dir b i
    = disk p !! file_path dir b i.
Proof.
  intros Hne.
  assert (Hpath : file_path dir b i <> file_path dir b' i').
  { intros H. apply file_path_inj in H. lia. }
  repeat split.
  - intros H. apply file_name_inj in H. lia.
  - exact Hpath.
  - intros E gas size p.
    destruct (create_file_frame E gas (file_path dir b' i') size p) as (_ & _ & Hd).
    by apply Hd.
Qed.

Lemma file_names_distinct_witness :
  (1 <> 2 \/ 0 <> 0) /\ file_name 1 0 <> file_name 2 0.
Proof.
  split; [left; lia|].
  apply (file_names_distinct "generated_files" 1 0 2 0). left; lia.
Defined.

(** ** [format_size] *)

Section FormatSize.

(** The loop stops at the first unit at which the value, divided by
    [1024.0] once per earlier unit, is below [1024.0]. *)
Lemma format_size_from_below us :
  forall v k w,
    (k < length us)%nat ->
    scaled v k = Val w ->
    lt_1024 w = true ->
    (forall j, (j < k)%nat -> exists u, scaled v j = Val u /\ lt_1024 u = false) ->
    format_size_from us v
    = except_bind (fmt_2f w) (fun s => Val (s +:+ " " +:+ nth k us "")).
Proof.
  induction us as [|unit rest IH]; intros v k w Hk Hscaled Hbelow Hprev; cbn in Hk; [lia|].
  destruct k as [|k]; cbn in Hscaled |- *.
  - injection Hscaled as ->. by rewrite Hbelow.
  - destruct (Hprev 0%nat ltac:(lia)) as (u & Hu & Hnot). cbn in Hu. injection Hu as <-.
    rewrite Hnot. destruct (div_1024 v) as [v'|e] eqn:Hdiv; cbn in *; [|discriminate].
    apply IH; [lia | done | done |].
    intros j Hj. destruct (Hprev (S j) ltac:(lia)) as (u & Hu & Hnot').
    cbn in Hu. rewrite Hdiv in Hu. eauto.
Qed.

(** When no unit of the list fits, the value after one division per
    unit is shown in PB. *)
Lemma format_size_from_above us :
  forall v w,
    scaled v (length us) = Val w ->
    (forall j, (j < length us)%nat -> exists u, scaled v j = Val u /\ lt_1024 u = false) ->
    format_size_from us v = except_bind (fmt_2f w) (fun s => Val (s +:+ " PB")).
Proof.
  induction us as [|unit rest IH]; intros v w Hscaled Hprev; cbn in Hscaled |- *.
  - by injection Hscaled as ->.
  - destruct (Hprev 0%nat ltac:(cbn; lia)) as (u & Hu & Hnot). cbn in Hu. injection Hu as <-.
    rewrite Hnot. destruct (div_1024 v) as [v'|e] eqn:Hdiv; cbn in *; [|discriminate].
    apply IH; [done|].
    intros j Hj. destruct (Hprev (S j) ltac:(cbn; lia)) as (u & Hu & Hnot').
    cbn in Hu. rewrite Hdiv in Hu. eauto.
Qed.

End FormatSize.

(** C6.  [format_size] gives "0.00 B" for 0, "1.00 KB" for 1024,
    "1.00 MB" for 1024*1024 and "1.50 KB" for 1536.  In general it
    divides by 1024.0 once per unit passed and shows the value, with
    two decimals, at the first of B, KB, MB, GB, TB at which it is below
    1024.0, and in PB when it is below 1024.0 at none of them. *)
Theorem format_size_examples :
  format_size 0 = Val "0.00 B" /\
  format_size 1024 = Val "1.00 KB" /\
  format_size (1024 * 1024) = Val "1.00 MB" /\
  format_size 1536 = Val "1.50 KB" /\
  (forall n k w,
     (k < 5)%nat ->
     scaled (PyInt n) k = Val w ->
     lt_1024 w = true ->
     (forall j, (j < k)%nat -> exists u, scaled (PyInt n) j = Val u /\ lt_1024 u = false) ->
     format_size n = except_bind (fmt_2f w) (fun s => Val (s +:+ " " +:+ nth k units ""))) /\
  (forall n w,
     scaled (PyInt n) 5 = Val w ->
     (forall j, (j < 5)%nat -> exists u, scaled (PyInt n) j = Val u /\ lt_1024 u = false) ->
     format_size n = except_bind (fmt_2f w) (fun s => Val (s +:+ " PB"))).
Proof.
  do 4 (split; [vm_compute; reflexivity|]). split.
  - intros n k w Hk. by apply format_size_from_below.
  - intros n w. apply (format_size_from_above units).
Qed.

Lemma format_size_examples_witness :
  format_size 1536
  = except_bind (fmt_2f (PyFloat (Float.div (Float.of_Z 1536) Float.f1024)))
                (fun s => Val (s +:+ " KB")).
Proof.
  destruct format_size_examples as (_ & _ & _ & _ & Hbelow & _).
  apply (Hbelow 1536 1%nat (PyFloat (Float.div (Float.of_Z 1536) Float.f1024))).
  - lia.
  - vm_compute. reflexivity.
  - vm_compute. reflexivity.
  - intros j Hj. assert (j = 0%nat) as -> by lia.
    exists (PyInt 1536). split; vm_compute; reflexivity.
Defined.

(** ** The batch loop *)

Section BatchLoop.

Variable E : env.
Variable cfg : config.

Lemma get_vars_run {B} (k : run_state -> io B) p : (get_vars ≫= k) p = k (vars p) p.
Proof. reflexivity. Qed.

Lemma set_vars_run {B} v (k : unit -> io B) p :
  (set_vars v ≫= k) p = k tt (Proc (disk p) (stdout p) (calls p) (clock p) (drawn p) v).
Proof. reflexivity. Qed.

Lemma print_run {B} line (k : unit -> io B) p :
  (print line ≫= k) p
  = k tt (Proc (disk p) (stdout p ++ [line]) (calls p) (clock p) (drawn p) (vars p)).
Proof. reflexivity. Qed.

Lemma lift_run {A B} (x : except A) (k : A -> io B) p :
  (lift x ≫= k) p = match x with Val a => k a p | Exc e => (p, Raise e) end.
Proof. by destruct x. Qed.

Lemma time_time_run {B} (k : spec_float -> io B) p :
  (time_time E ≫= k) p
  = let q := Proc (disk p) (stdout p) (calls p) (S (clock p)) (drawn p) (vars p) in
    match verdict E (clock p) with
    | Proceed => k (wallclock E (clock p)) q
    | Interrupt => (q, Raise KeyboardInterrupt)
    | Fault msg => (q, Raise (OSError msg))
    end.
Proof.
  unfold mbind, io_mbind, io_bind, time_time. by destruct (verdict E (clock p)).
Qed.

Lemma sys_run c p :
  sys E c p =
  let q := Proc (disk p) (stdout p) (calls p ++ [c]) (S (clock p)) (drawn p) (vars p) in
  (q, match verdict E (clock p) with
      | Proceed => Ret tt
      | Interrupt => Raise KeyboardInterrupt
      | Fault msg => Raise (OSError msg)
      end).
Proof. unfold sys. by destruct (verdict E (clock p)). Qed.

Lemma sleep_run (seconds : N) : sleep E (Z.of_N seconds) = sys E (SysSleep (Z.of_N seconds)).
Proof. unfold sleep. destruct (Z.ltb_spec (Z.of_N seconds) 0); [lia | reflexivity]. Qed.

Lemma make_file_frame gas i p :
  vars (fst (make_file E cfg gas i p)) = vars p /\
  stdout (fst (make_file E cfg gas i p)) = stdout p.
Proof.
  unfold make_file. rewrite get_vars_run.
  destruct (create_file_frame E gas (file_path (OUTPUT_DIR cfg) (batch (vars p)) i)
              (file_size (vars p)) p) as (Hv & Ho & _).
  auto.
Qed.

Lemma for_range_frame gas n :
  forall from p,
    vars (fst (for_range from n (make_file E cfg gas) p)) = vars p /\
    stdout (fst (for_range from n (make_file E cfg gas) p)) = stdout p.
Proof.
  induction n as [|n IH]; intros from p; cbn [for_range]; [by cbn|].
  rewrite bind_run.
  destruct (make_file_frame gas from p) as [Hv Ho].
  destruct (make_file E cfg gas from p) as [q [[]|e|]]; cbn in *; auto.
  destruct (IH (from + 1) q) as [Hv' Ho']. by rewrite Hv', Ho'.
Qed.

(** How one turn of the loop leaves the variables and the output. *)
Lemma loop_body_outcome (gas : nat) (p : proc) :
  let v := next_batch (vars p) in
  let R := loop_body E cfg gas p in
  match snd R with
  | Ret _ =>
      vars (fst R) = double (count_batch v) /\
      exists size elapsed total,
        format_size (file_size v) = Val size /\
        format_size (total_files (count_batch v) * file_size v) = Val total /\
        stdout (fst R)
        = stdout p ++ [batch_line v size; created_line (count_batch v) elapsed;
                       totals_line (count_batch v) total; ""]
  | _ =>
      vars (fst R) = v \/ vars (fst R) = count_batch v \/
      vars (fst R) = double (count_batch v)
  end.
Proof.
  cbv zeta. unfold loop_body.
  rewrite get_vars_run, set_vars_run, get_vars_run, lift_run. cbn [vars].
  destruct (format_size (file_size (next_batch (vars p)))) as [size|e] eqn:Hsize;
    [|cbn; auto].
  rewrite print_run, time_time_run. cbn [disk stdout calls clock drawn vars].
  destruct (verdict E (clock p)); [|cbn; auto..].
  rewrite bind_run.
  match goal with |- context [for_range ?a ?n ?f ?q] =>
    destruct (for_range_frame gas n a q) as [Hv Ho];
    destruct (for_range a n f q) as [p2 r2] end.
  cbn in Hv, Ho.
  destruct r2 as [[]|e|]; [|cbn; auto..].
  rewrite time_time_run. cbn [disk stdout calls clock drawn vars].
  destruct (verdict E (clock p2)); [|cbn; rewrite Hv; auto..].
  rewrite get_vars_run, set_vars_run, get_vars_run, print_run, lift_run.
  cbn [disk stdout calls clock drawn vars]. rewrite Hv, Ho.
  change (file_size (count_batch (next_batch (vars p))))
    with (file_size (next_batch (vars p))).
  destruct (format_size (total_files (count_batch (next_batch (vars p)))
                         * file_size (next_batch (vars p)))) as [total|e] eqn:Htotal;
    [|cbn; auto].
  rewrite print_run, print_run, set_vars_run. rewrite sleep_run, sys_run.
  cbn [disk stdout calls clock drawn vars fst snd].
  destruct (verdict E (S (clock p2))); [|auto..].
  split; [reflexivity|].
  eexists size, _, total. repeat split. by rewrite <- !app_assoc.
Qed.

(** The announcement of a batch is printed as soon as the size to
    show can be formatted, whatever happens next. *)
Lemma loop_body_announces (gas : nat) (p : proc) size :
  format_size (file_size (next_batch (vars p))) = Val size ->
  exists rest,
    stdout (fst (loop_body E cfg gas p))
    = stdout p ++ batch_line (next_batch (vars p)) size :: rest.
Proof.
  intros Hsize. unfold loop_body.
  rewrite get_vars_run, set_vars_run, get_vars_run, lift_run. cbn [vars].
  rewrite Hsize.
  rewrite print_run, time_time_run. cbn [disk stdout calls clock drawn vars].
  destruct (verdict E (clock p)); [|by exists []..].
  rewrite bind_run.
  match goal with |- context [for_range ?a ?n ?f ?q] =>
    destruct (for_range_frame gas n a q) as [Hv Ho];
    destruct (for_range a n f q) as [p2 r2] end.
  cbn in Hv, Ho.
  destruct r2 as [[]|e|]; [|exists []; cbn [fst]; by rewrite Ho..].
  rewrite time_time_run. cbn [disk stdout calls clock drawn vars].
  destruct (verdict E (clock p2)); [|exists []; cbn [fst stdout]; by rewrite Ho..].
  rewrite get_vars_run, set_vars_run, get_vars_run, print_run, lift_run.
  cbn [disk stdout calls clock drawn vars]. rewrite Hv, Ho.
  match goal with |- context [format_size ?z] => destruct (format_size z) as [total|e] end.
  - rewrite print_run, print_run, set_vars_run. rewrite sleep_run, sys_run.
    cbn [disk stdout calls clock drawn vars fst snd].
    eexists. rewrite <- !app_assoc. reflexivity.
  - eexists. cbn [fst stdout]. rewrite <- !app_assoc. reflexivity.
Qed.


Lemma initial_reached : initial cfg = reached cfg 0.
Proof. unfold initial, reached. cbn. f_equal; lia. Qed.

Lemma step_reached k :
  double (count_batch (next_batch (reached cfg k))) = reached cfg (S k).
Proof.
  unfold double, count_batch, next_batch, reached. cbn [num_files file_size batch total_files].
  rewrite Nat2Z.inj_succ, Z.pow_succ_r by lia. f_equal; lia.
Qed.

(** The three values the variables take while batch [j + 1] runs. *)
Lemma batches_outcome gas n :
  forall k p,
    vars p = reached cfg k ->
    match snd (batches E cfg gas n p) with
    | Ret _ => vars (fst (batches E cfg gas n p)) = reached cfg (k + n)
    | _ =>
        exists j, (k <= j < k + n)%nat /\
          (vars (fst (batches E cfg gas n p)) = next_batch (reached cfg j) \/
           vars (fst (batches E cfg gas n p)) = count_batch (next_batch (reached cfg j)) \/
           vars (fst (batches E cfg gas n p)) = reached cfg (S j))
    end.
Proof.
  induction n as [|n IH]; intros k p Hp; cbn [batches].
  - cbn. by rewrite Nat.add_0_r.
  - rewrite bind_run. pose proof (loop_body_outcome gas p) as Hbody. cbv zeta in Hbody.
    rewrite Hp in Hbody.
    destruct (loop_body E cfg gas p) as [q [[]|e|]]; cbn [fst snd] in *.
    + destruct Hbody as [Hq _]. rewrite step_reached in Hq.
      specialize (IH (S k) q Hq).
      destruct (batches E cfg gas n q) as [q' [[]|e|]]; cbn [fst snd] in *.
      * by rewrite <- Nat.add_succ_comm.
      * destruct IH as (j & Hj & IH). exists j. split; [lia | done].
      * destruct IH as (j & Hj & IH). exists j. split; [lia | done].
    + exists k. split; [lia|]. by rewrite <- step_reached.
    + exists k. split; [lia|]. by rewrite <- step_reached.
Qed.

Lemma batches_app gas m d p :
  batches E cfg gas (m + d) p = (batches E cfg gas m ;; batches E cfg gas d) p.
Proof.
  revert p. induction m as [|m IH]; intros p; cbn [batches Nat.add]; [reflexivity|].
  rewrite !bind_run. destruct (loop_body E cfg gas p) as [q [[]|e|]]; [|done..].
  rewrite IH. by rewrite bind_run.
Qed.

Lemma files_written_closed k :
  files_written cfg k = INITIAL_FILES cfg * (2 ^ Z.of_nat k - 1).
Proof.
  unfold files_written. induction k as [|k IH]; [cbn; lia|].
  rewrite seq_S, map_app. unfold sumZ in *. rewrite foldr_app. cbn [map foldr].
  assert (Hfold : forall l a, foldr Z.add a l = foldr Z.add 0 l + a).
  { induction l as [|x l IHl]; intros a; cbn; [lia|]. rewrite IHl. lia. }
  rewrite Hfold, IH. unfold planned_files.
  replace (Z.of_nat (1 + k) - 1) with (Z.of_nat k) by lia.
  rewrite Nat2Z.inj_succ, Z.pow_succ_r by lia. lia.
Qed.

Lemma calm_from_later k k' : calm_from E k -> (k <= k')%nat -> calm_from E k'.
Proof. intros Hcalm Hk i Hi. apply Hcalm. lia. Qed.

Lemma for_range_live gas n :
  forall from p,
    calm_from E (clock p) ->
    file_size (vars p) <= Z.of_nat gas * MiB ->
    snd (for_range from n (make_file E cfg gas) p) = Ret tt /\
    (clock p <= clock (fst (for_range from n (make_file E cfg gas) p)))%nat.
Proof.
  induction n as [|n IH]; intros from p Hcalm Hgas; cbn [for_range]; [by cbn|].
  rewrite bind_run.
  destruct (make_file_frame gas from p) as [Hv _].
  unfold make_file in *. rewrite get_vars_run in *.
  pose proof (create_file_live E gas (file_path (OUTPUT_DIR cfg) (batch (vars p)) from)
                (file_size (vars p)) p Hcalm Hgas) as Hret.
  pose proof (create_file_clock E gas (file_path (OUTPUT_DIR cfg) (batch (vars p)) from)
                (file_size (vars p)) p) as Hclock.
  destruct (create_file E gas _ (file_size (vars p)) p) as [q r]; cbn [fst snd] in *.
  subst r.
  destruct (IH (from + 1) q) as [Hret' Hclock'].
  - by eapply calm_from_later.
  - by rewrite Hv.
  - split; [done | lia].
Qed.

(** One turn of the loop goes to its end when the environment is
    calm, the sizes can be shown and the budget covers a file. *)
Lemma loop_body_live gas p k :
  vars p = reached cfg k ->
  calm_from E (clock p) ->
  batch_feasible cfg gas (S k) = true ->
  snd (loop_body E cfg gas p) = Ret tt /\
  (clock p <= clock (fst (loop_body E cfg gas p)))%nat.
Proof.
  intros Hp Hcalm Hfeasible.
  apply andb_prop in Hfeasible as [Hfeasible Htotal].
  apply andb_prop in Hfeasible as [Hgas Hsize].
  apply Z.leb_le in Hgas. unfold shows in Hsize, Htotal.
  rewrite files_written_closed in Htotal.
  assert (Hplanned : planned_size cfg (S k) = file_size (next_batch (vars p))).
  { rewrite Hp. unfold planned_size. cbn [next_batch reached file_size]. do 2 f_equal. lia. }
  assert (Hcount : INITIAL_FILES cfg * (2 ^ Z.of_nat (S k) - 1)
                   = total_files (count_batch (next_batch (vars p)))).
  { rewrite Hp. cbn [next_batch count_batch reached total_files num_files].
    rewrite Nat2Z.inj_succ, Z.pow_succ_r by lia. lia. }
  rewrite Hplanned in Hgas, Hsize, Htotal. rewrite Hcount in Htotal.
  unfold loop_body.
  rewrite get_vars_run, set_vars_run, get_vars_run, lift_run. cbn [vars].
  destruct (format_size (file_size (next_batch (vars p)))) as [size|e]; [|discriminate].
  rewrite print_run, time_time_run. cbn [disk stdout calls clock drawn vars].
  rewrite (Hcalm _ (le_n _)), bind_run.
  match goal with |- context [for_range ?a ?n ?f ?q] =>
    destruct (for_range_frame gas n a q) as [Hv _];
    destruct (for_range_live gas n a q) as [Hret Hclock];
      [intros i Hi; apply Hcalm; cbn in Hi; lia | exact Hgas |];
    destruct (for_range a n f q) as [p2 r2] end.
  cbn [fst snd clock vars] in Hv, Hret, Hclock. subst r2.
  rewrite time_time_run. cbn [disk stdout calls clock drawn vars].
  rewrite (Hcalm (clock p2)) by lia.
  rewrite get_vars_run, set_vars_run, get_vars_run, print_run, lift_run.
  cbn [disk stdout calls clock drawn vars]. rewrite Hv.
  change (file_size (count_batch (next_batch (vars p))))
    with (file_size (next_batch (vars p))).
  destruct (format_size (total_files (count_batch (next_batch (vars p)))
                         * file_size (next_batch (vars p)))) as [total|e]; [|discriminate].
  rewrite print_run, print_run, set_vars_run. rewrite sleep_run, sys_run.
  cbn [disk stdout calls clock drawn vars fst snd].
  rewrite Hcalm by lia. split; [reflexivity | lia].
Qed.

(** The first [n] batches after [k] all complete under the same
    conditions. *)
Lemma batches_live gas n :
  forall k p,
    vars p = reached cfg k ->
    calm_from E (clock p) ->
    (forall j, (k < j <= k + n)%nat -> batch_feasible cfg gas j = true) ->
    snd (batches E cfg gas n p) = Ret tt.
Proof.
  induction n as [|n IH]; intros k p Hp Hcalm Hall; cbn [batches]; [reflexivity|].
  rewrite bind_run.
  destruct (loop_body_live gas p k Hp Hcalm) as [Hret Hclock]; [apply Hall; lia|].
  pose proof (loop_body_outcome gas p) as Hbody. cbv zeta in Hbody.
  destruct (loop_body E cfg gas p) as [q r]; cbn [fst snd] in *. subst r.
  destruct Hbody as [Hq _]. rewrite Hp, step_reached in Hq.
  apply (IH (S k)); [done | by eapply calm_from_later |].
  intros j Hj. apply Hall. lia.
Qed.

(** The size shown on the totals line of batch [n + 1]: the running
    total of files times the size of a file of that batch. *)
Lemma reported_total_size gas n p :
  vars p = initial cfg ->
  snd (batches E cfg gas (S n) p) = Ret tt ->
  exists shown total,
    format_size (files_written cfg (S n) * planned_size cfg (S n)) = Val total /\
    stdout (fst (batches E cfg gas (S n) p))
    = shown ++ ["  Total files: " +:+ Text.str_commas (files_written cfg (S n))
                  +:+ " | Total size: " +:+ total; ""].
Proof.
  intros Hp. rewrite initial_reached in Hp.
  replace (S n) with (n + 1)%nat by lia. rewrite batches_app, bind_run.
  pose proof (batches_outcome gas n 0 p Hp) as Hout. cbn [Nat.add] in Hout.
  destruct (batches E cfg gas n p) as [q [[]|e|]]; cbn [fst snd] in *; try discriminate.
  cbn [batches]. rewrite bind_run.
  pose proof (loop_body_outcome gas q) as Hbody. cbv zeta in Hbody. rewrite Hout in Hbody.
  destruct (loop_body E cfg gas q) as [q' [[]|e|]]; cbn [fst snd] in *; try discriminate.
  intros _. destruct Hbody as (_ & size & elapsed & total & _ & Htotal & Hstdout).
  assert (Hfiles : total_files (count_batch (next_batch (reached cfg n)))
                   = files_written cfg (n + 1)).
  { rewrite files_written_closed. cbn [reached next_batch count_batch total_files num_files].
    rewrite Nat.add_1_r, Nat2Z.inj_succ, Z.pow_succ_r by lia. lia. }
  assert (Hsize : file_size (next_batch (reached cfg n)) = planned_size cfg (n + 1)).
  { unfold planned_size. cbn [reached next_batch file_size]. do 2 f_equal. lia. }
  rewrite Hfiles, Hsize in Htotal.
  exists (stdout q ++ [batch_line (next_batch (reached cfg n)) size;
                       created_line (count_batch (next_batch (reached cfg n))) elapsed]), total.
  split; [exact Htotal|].
  cbn [mret io_mret io_ret fst]. rewrite Hstdout, <- app_assoc.
  unfold totals_line. by rewrite Hfiles.
Qed.

Lemma bytes_written_closed k :
  3 * bytes_written cfg k
  = INITIAL_FILES cfg * INITIAL_FILE_SIZE cfg * (4 ^ Z.of_nat k - 1).
Proof.
  unfold bytes_written. induction k as [|k IH]; [cbn; lia|].
  rewrite seq_S, map_app. unfold sumZ in *. rewrite foldr_app. cbn [map foldr].
  assert (Hfold : forall l a, foldr Z.add a l = foldr Z.add 0 l + a).
  { induction l as [|x l IHl]; intros a; cbn; [lia|]. rewrite IHl. lia. }
  rewrite Hfold.
  set (x := foldr Z.add 0 (map _ (seq 1 k))) in *.
  unfold planned_files, planned_size.
  replace (Z.of_nat (1 + k) - 1) with (Z.of_nat k) by lia.
  assert (Hsquare : 4 ^ Z.of_nat k = 2 ^ Z.of_nat k * 2 ^ Z.of_nat k)
    by (change 4 with (2 * 2); apply Z.pow_mul_l).
  rewrite Nat2Z.inj_succ, Z.pow_succ_r, Hsquare by lia. rewrite Hsquare in IH.
  set (v := 2 ^ Z.of_nat k) in *. lia.
Qed.

(** From the second batch on, and for positive settings, the size
    shown exceeds the size of what was written. *)
Lemma reported_exceeds_written k :
  0 < INITIAL_FILES cfg -> 0 < INITIAL_FILE_SIZE cfg -> (2 <= k)%nat ->
  bytes_written cfg k < files_written cfg k * planned_size cfg k.
Proof.
  intros Hfiles Hsize Hk. destruct k as [|k]; [lia|].
  pose proof (bytes_written_closed (S k)) as Hwritten.
  rewrite files_written_closed. unfold planned_size.
  replace (Z.of_nat (S k) - 1) with (Z.of_nat k) by lia.
  assert (Hsquare : 4 ^ Z.of_nat k = 2 ^ Z.of_nat k * 2 ^ Z.of_nat k)
    by (change 4 with (2 * 2); apply Z.pow_mul_l).
  rewrite Nat2Z.inj_succ, Z.pow_succ_r, Hsquare in Hwritten by lia.
  rewrite Nat2Z.inj_succ, Z.pow_succ_r by lia.
  assert (Hv : 2 <= 2 ^ Z.of_nat k).
  { change 2 with (2 ^ 1) at 1. apply Z.pow_le_mono_r; lia. }
  set (v := 2 ^ Z.of_nat k) in *.
  assert (Hpos : 0 < INITIAL_FILES cfg * INITIAL_FILE_SIZE cfg) by nia.
  set (a := INITIAL_FILES cfg * INITIAL_FILE_SIZE cfg) in *.
  assert (Hgap : 0 < a * ((2 * v - 1) * (v - 1))) by (apply Z.mul_pos_pos; nia).
  replace (INITIAL_FILES cfg * (2 * v - 1) * (INITIAL_FILE_SIZE cfg * v))
    with (a * ((2 * v - 1) * v)) by (unfold a; ring).
  nia.
Qed.

End BatchLoop.

(** C4.  When batch [N = n + 1] starts, that is when the [n] batches
    before it are complete, the number of files planned is
    [INITIAL_FILES * 2^(N-1)] and the size planned for each is
    [INITIAL_FILE_SIZE * 2^(N-1)], as integers without any bound; and
    these are the numbers the batch announces.  Batch [N] does start
    whenever the environment lets every call through and the batches
    before it are feasible. *)
Theorem planned_parameters_double E cfg gas n p :
  vars p = initial cfg ->
  (calm_from E (clock p) ->
   (forall j, (1 <= j <= n)%nat -> batch_feasible cfg gas j = true) ->
   snd (batches E cfg gas n p) = Ret tt) /\
  (snd (batches E cfg gas n p) = Ret tt ->
   let q := fst (batches E cfg gas n p) in
   num_files (vars q) = planned_files cfg (S n) /\
   file_size (vars q) = planned_size cfg (S n) /\
   batch (vars q) + 1 = Z.of_nat (S n) /\
   forall size,
     format_size (planned_size cfg (S n)) = Val size ->
     exists rest,
       stdout (fst (loop_body E cfg gas q))
       = stdout q
           ++ ("Batch " +:+ Text.str (Z.of_nat (S n)) +:+ ": Creating "
                 +:+ Text.str (planned_files cfg (S n)) +:+ " files of " +:+ size
                 +:+ " each...")
           :: rest).
Proof.
  intros Hp. rewrite initial_reached in Hp. split.
  - intros Hcalm Hall. apply (batches_live E cfg gas n 0 p Hp Hcalm).
    intros j Hj. apply Hall. lia.
  - intros Hret q. subst q.
    pose proof (batches_outcome E cfg gas n 0 p Hp) as Hout. rewrite Hret in Hout.
    cbn [Nat.add] in Hout.
    assert (Hn : Z.of_nat (S n) - 1 = Z.of_nat n) by lia.
    unfold planned_files, planned_size. rewrite Hn, Hout.
    cbn [reached num_files file_size batch].
    repeat split; [lia|].
    intros size Hsize.
    destruct (loop_body_announces E cfg gas (fst (batches E cfg gas n p)) size)
      as [rest Hrest].
    + by rewrite Hout.
    + exists rest. rewrite Hrest, Hout. unfold batch_line, next_batch.
      cbn [reached num_files file_size batch]. by rewrite Nat2Z.inj_succ.
Qed.

Lemma planned_parameters_double_witness :
  vars (at_loop_entry settings) = initial settings /\
  snd (batches quiet settings 1 2 (at_loop_entry settings)) = Ret tt /\
  num_files (vars (fst (batches quiet settings 1 2 (at_loop_entry settings)))) = 20 /\
  file_size (vars (fst (batches quiet settings 1 2 (at_loop_entry settings)))) = 4096.
Proof.
  destruct (planned_parameters_double quiet settings 1 2 (at_loop_entry settings) eq_refl)
    as [Hlive Hvalues].
  assert (Hret : snd (batches quiet settings 1 2 (at_loop_entry settings)) = Ret tt).
  { apply Hlive; [intros i _; reflexivity|].
    intros j Hj. assert (j = 1 \/ j = 2)%nat as [-> | ->] by lia; vm_compute; reflexivity. }
  destruct (Hvalues Hret) as (Hfiles & Hsize & _).
  split; [reflexivity|]. split; [exact Hret|].
  split; [rewrite Hfiles | rewrite Hsize]; reflexivity.
Defined.

(** C5.  Once batch [n] is complete the running total of files is the
    sum of the numbers of files of batches 1 to [n], that is
    [INITIAL_FILES * (2^n - 1)]; with [INITIAL_FILES = 5] it is 15
    after two batches; and, the initial number of files being
    non-negative, the total never goes down afterwards, however far
    the run continues and however it stops. *)
Theorem total_files_is_sum E cfg gas n p :
  vars p = initial cfg ->
  snd (batches E cfg gas n p) = Ret tt ->
  let q := fst (batches E cfg gas n p) in
  total_files (vars q) = files_written cfg n /\
  total_files (vars q) = INITIAL_FILES cfg * (2 ^ Z.of_nat n - 1) /\
  (INITIAL_FILES cfg = 5 -> n = 2%nat -> total_files (vars q) = 15) /\
  (0 <= INITIAL_FILES cfg ->
   forall d, total_files (vars q) <= total_files (vars (fst (batches E cfg gas d q)))).
Proof.
  intros Hp Hret q. subst q.
  rewrite initial_reached in Hp.
  pose proof (batches_outcome E cfg gas n 0 p Hp) as Hout. rewrite Hret in Hout.
  cbn [Nat.add] in Hout.
  rewrite files_written_closed, Hout. cbn [reached total_files].
  repeat split.
  - intros -> ->. reflexivity.
  - intros Hfiles d.
    pose proof (batches_outcome E cfg gas d n _ Hout) as Hlater.
    assert (Hpow : forall a b : nat, (a <= b)%nat -> 2 ^ Z.of_nat a <= 2 ^ Z.of_nat b)
      by (intros a b Hab; apply Z.pow_le_mono_r; lia).
    destruct (snd (batches E cfg gas d (fst (batches E cfg gas n p)))).
    + rewrite Hlater. cbn [reached total_files]. specialize (Hpow n (n + d)%nat). nia.
    + destruct Hlater as (j & Hj & [-> | [-> | ->]]);
        cbn [reached next_batch count_batch total_files num_files];
        pose proof (Hpow n j ltac:(lia)); pose proof (Hpow n (S j) ltac:(lia));
        assert (0 < 2 ^ Z.of_nat j) by (apply Z.pow_pos_nonneg; lia); nia.
    + destruct Hlater as (j & Hj & [-> | [-> | ->]]);
        cbn [reached next_batch count_batch total_files num_files];
        pose proof (Hpow n j ltac:(lia)); pose proof (Hpow n (S j) ltac:(lia));
        assert (0 < 2 ^ Z.of_nat j) by (apply Z.pow_pos_nonneg; lia); nia.
Qed.

Lemma total_files_is_sum_witness :
  vars (at_loop_entry settings) = initial settings /\
  snd (batches quiet settings 1 2 (at_loop_entry settings)) = Ret tt /\
  total_files (vars (fst (batches quiet settings 1 2 (at_loop_entry settings)))) = 15.
Proof.
  assert (Hret : snd (batches quiet settings 1 2 (at_loop_entry settings)) = Ret tt)
    by (vm_compute; reflexivity).
  destruct (total_files_is_sum quiet settings 1 2 (at_loop_entry settings) eq_refl Hret)
    as (_ & _ & Hfifteen & _).
  split; [reflexivity|]. split; [exact Hret | by apply Hfifteen].
Defined.

(** ** [main] and its handlers *)

Section Stops.

Variable E : env.
Variable cfg : config.

Lemma main_enters gas fuel p :
  snd (startup E cfg p) = Ret tt ->
  main E cfg gas fuel p
  = try_except (while_True E cfg gas fuel) handlers (entered E cfg p).
Proof.
  unfold main, entered. rewrite !bind_run.
  destruct (startup E cfg p) as [q [[]|e|]]; cbn [snd]; try discriminate.
  intros _. by rewrite set_vars_run.
Qed.

Lemma entered_vars p :
  snd (startup E cfg p) = Ret tt -> vars (entered E cfg p) = initial cfg.
Proof.
  unfold entered. rewrite bind_run.
  destruct (startup E cfg p) as [q [[]|e|]]; cbn [snd]; try discriminate.
  reflexivity.
Qed.

(** The loop never ends by itself. *)
Lemma while_True_endless gas fuel p a :
  snd (while_True E cfg gas fuel p) <> Ret a.
Proof.
  unfold while_True. rewrite bind_run.
  by destruct (batches E cfg gas fuel p) as [q [[]|e|]].
Qed.

(** Where the variables stand when an exception leaves the loop:
    some batch [j + 1] was running, and the total counts the files
    of the first [j] or of the first [j + 1] batches. *)
Lemma while_True_stopped gas fuel p e :
  vars p = initial cfg ->
  snd (while_True E cfg gas fuel p) = Raise e ->
  exists j, (j < fuel)%nat /\
    batch (vars (fst (while_True E cfg gas fuel p))) = Z.of_nat (S j) /\
    (total_files (vars (fst (while_True E cfg gas fuel p))) = files_written cfg j \/
     total_files (vars (fst (while_True E cfg gas fuel p))) = files_written cfg (S j)).
Proof.
  intros Hp. rewrite (initial_reached cfg) in Hp.
  pose proof (batches_outcome E cfg gas fuel 0 p Hp) as Hout.
  unfold while_True. rewrite bind_run.
  destruct (batches E cfg gas fuel p) as [q [[]|e'|]]; cbn [fst snd] in *; try discriminate.
  intros _. destruct Hout as (j & Hj & Hphase). exists j. split; [lia|].
  rewrite !files_written_closed.
  destruct Hphase as [-> | [-> | ->]];
    cbn [reached next_batch count_batch batch total_files num_files];
    rewrite ?Nat2Z.inj_succ, ?Z.pow_succ_r by lia; split; (lia || (left; lia) || (right; lia)).
Qed.

Lemma on_interrupt_run p :
  on_interrupt p
  = (Proc (disk p) (stdout p ++ interrupt_block (vars p)) (calls p) (clock p) (drawn p)
          (vars p), Ret tt).
Proof.
  unfold on_interrupt. rewrite get_vars_run, !print_run. unfold print, interrupt_block.
  cbn [disk stdout calls clock drawn vars]. by rewrite <- !app_assoc.
Qed.

Lemma on_error_run e p :
  on_error e p
  = (Proc (disk p) (stdout p ++ error_block e (vars p)) (calls p) (clock p) (drawn p)
          (vars p), Ret tt).
Proof.
  unfold on_error. rewrite get_vars_run, !print_run. unfold print, error_block.
  cbn [disk stdout calls clock drawn vars]. by rewrite <- !app_assoc.
Qed.

End Stops.




(** C3 (as the code has it).  When an interrupt raised inside the
    batch loop stops the run, [main] prints a rule, "Stopped by user",
    the line "Final stats: [total_files] files created" and a rule,
    then returns, so the process exits with status 0.  The total is
    that of the batches counted so far; the number of batches is not
    among the things printed. *)
Theorem interrupt_prints_file_total E cfg gas fuel p :
  snd (startup E cfg p) = Ret tt ->
  snd (while_True E cfg gas fuel (entered E cfg p)) = Raise KeyboardInterrupt ->
  let stopped := fst (while_True E cfg gas fuel (entered E cfg p)) in
  let R := main E cfg gas fuel p in
  snd R = Ret tt /\
  exit_status (snd R) = Some 0 /\
  stdout (fst R)
  = stdout stopped
      ++ [Text.nl +:+ rule; "Stopped by user";
          "Final stats: " +:+ Text.str_commas (total_files (vars stopped)) +:+ " files created";
          rule] /\
  exists j, (j < fuel)%nat /\
    (total_files (vars stopped) = files_written cfg j \/
     total_files (vars stopped) = files_written cfg (S j)).
Proof.
  intros Hstart Hstop stopped R. subst stopped R.
  rewrite (main_enters E cfg gas fuel p Hstart). unfold try_except.
  destruct (while_True_stopped E cfg gas fuel _ _ (entered_vars E cfg p Hstart) Hstop)
    as (j & Hj & _ & Htotal).
  destruct (while_True E cfg gas fuel (entered E cfg p)) as [q r]; cbn [fst snd] in *.
  subst r. cbn [handlers]. rewrite on_interrupt_run. cbn [fst snd stdout exit_status].
  repeat split. eauto.
Qed.

Lemma interrupt_prints_file_total_witness :
  let E := strike 38 Interrupt in
  snd (startup E settings (boot ∅)) = Ret tt /\
  snd (while_True E settings 1 3 (entered E settings (boot ∅))) = Raise KeyboardInterrupt /\
  exit_status (snd (main E settings 1 3 (boot ∅))) = Some 0.
Proof.
  intros E.
  assert (Hstart : snd (startup E settings (boot ∅)) = Ret tt) by (vm_compute; reflexivity).
  assert (Hstop : snd (while_True E settings 1 3 (entered E settings (boot ∅)))
                  = Raise KeyboardInterrupt)
    by (vm_compute; reflexivity).
  split; [exact Hstart|]. split; [exact Hstop|].
  exact (proj1 (proj2 (interrupt_prints_file_total E settings 1 3 (boot ∅) Hstart Hstop))).
Defined.

(** C3, the claim as stated fails: the user interrupts the run while
    the first file of batch 3 is being opened, two batches being
    complete.  The four lines printed on the way out give the 15 files
    created, and none of them shows a 2 or a 3, nor the word "batch". *)
Lemma interrupt_summary_omits_batches :
  let R := main (strike 38 Interrupt) settings 1 3 (boot ∅) in
  snd R = Ret tt /\
  vars (fst R) = {| num_files := 20; file_size := 4096; batch := 3; total_files := 15 |} /\
  drop 18 (stdout (fst R))
  = [Text.nl +:+ rule; "Stopped by user"; "Final stats: 15 files created"; rule] /\
  forallb (fun line => negb (occurs "2" line || occurs "3" line || occurs "batch" line))
          (drop 18 (stdout (fst R))) = true.
Proof.
  cbv zeta. repeat split; vm_compute; reflexivity.
Qed.

(** C1.  With the settings of the script and nothing going wrong, the
    line printed after the second batch reports a total size of
    30.00 KB, which is [15 * 2048 = 30720] bytes: the running total of
    files times the size of a file of the batch just completed.  The
    files of the two batches hold [5 * 1024 + 10 * 2048 = 25600] bytes,
    which [format_size] shows as 25.00 KB. *)
Theorem total_size_overstated_after_second_batch :
  let run := batches quiet settings 1 2 (at_loop_entry settings) in
  snd run = Ret tt /\
  List.filter (String.prefix "  Total files") (stdout (fst run))
  = ["  Total files: 5 | Total size: 5.00 KB";
     "  Total files: 15 | Total size: 30.00 KB"] /\
  format_size (15 * 2048) = Val "30.00 KB" /\
  bytes_written settings 2 = 5 * 1024 + 10 * 2048 /\
  bytes_written settings 2 = 25600 /\
  format_size 25600 = Val "25.00 KB".
Proof.
  cbv zeta. repeat split; vm_compute; reflexivity.
Qed.

(* ===================================================================== *)
(** * Part III.  Whole runs                                               *)
(* ===================================================================== *)

(** ** One turn of the batch loop, step by step *)

Section Anatomy.

Variable E : env.
Variable cfg : config.

(** The turn written out: what it does depends on the two calls of
    [format_size], on the two readings of the clock, on the [for] loop,
    and on the fate of the pause. *)
Lemma loop_body_unfold gas p :
  loop_body E cfg gas p =
  let v := next_batch (vars p) in
  match format_size (file_size v) with
  | Exc e => (Proc (disk p) (stdout p) (calls p) (clock p) (drawn p) v, Raise e)
  | Val size =>
      let q := Proc (disk p) (stdout p ++ [batch_line v size]) (calls p) (S (clock p))
                    (drawn p) v in
      match verdict E (clock p) with
      | Interrupt => (q, Raise KeyboardInterrupt)
      | Fault msg => (q, Raise (OSError msg))
      | Proceed =>
          match for_range 0 (Z.to_nat (num_files v)) (make_file E cfg gas) q with
          | (p2, Ret _) =>
              let q2 := Proc (disk p2) (stdout p2) (calls p2) (S (clock p2)) (drawn p2)
                             (vars p2) in
              match verdict E (clock p2) with
              | Interrupt => (q2, Raise KeyboardInterrupt)
              | Fault msg => (q2, Raise (OSError msg))
              | Proceed =>
                  let v2 := count_batch (vars p2) in
                  let elapsed := Float.sub (wallclock E (clock p2)) (wallclock E (clock p)) in
                  let out := stdout p2 ++ [created_line v2 elapsed] in
                  match format_size (total_files v2 * file_size v2) with
                  | Exc e =>
                      (Proc (disk p2) out (calls p2) (S (clock p2)) (drawn p2) v2, Raise e)
                  | Val total =>
                      (Proc (disk p2) ((out ++ [totals_line v2 total]) ++ [""])
                            (calls p2 ++ [SysSleep (Z.of_N (DELAY_SECONDS cfg))]) (S (S (clock p2)))
                            (drawn p2) (double v2),
                       match verdict E (S (clock p2)) with
                       | Proceed => Ret tt
                       | Interrupt => Raise KeyboardInterrupt
                       | Fault msg => Raise (OSError msg)
                       end)
                  end
              end
          | (p2, Raise e) => (p2, Raise e)
          | (p2, OutOfGas) => (p2, OutOfGas)
          end
      end
  end.
Proof.
  cbv zeta. unfold loop_body.
  rewrite get_vars_run, set_vars_run, get_vars_run, lift_run. cbn [vars].
  destruct (format_size (file_size (next_batch (vars p)))) as [size|e]; [|reflexivity].
  rewrite print_run, time_time_run. cbn [disk stdout calls clock drawn vars].
  destruct (verdict E (clock p)); [|reflexivity..].
  rewrite bind_run.
  match goal with |- context [for_range ?a ?n ?f ?q] =>
    destruct (for_range a n f q) as [p2 [[]|e|]] end; [|reflexivity..].
  rewrite time_time_run. cbn [disk stdout calls clock drawn vars].
  destruct (verdict E (clock p2)); [|reflexivity..].
  rewrite get_vars_run, set_vars_run, get_vars_run, print_run, lift_run.
  cbn [disk stdout calls clock drawn vars].
  match goal with |- context [format_size ?z] => destruct (format_size z) as [total|e] end;
    [|reflexivity].
  rewrite print_run, print_run, set_vars_run. rewrite sleep_run, sys_run.
  reflexivity.
Qed.

End Anatomy.

(** ** What a run leaves on the disk *)

Section Disk.

Variable E : env.
Variable cfg : config.

Lemma create_file_content gas f size p :
  snd (create_file E gas f size p) = Ret tt ->
  disk (fst (create_file E gas f size p)) !! f = Some (draw E (drawn p) (Z.to_nat size)).
Proof.
  rewrite create_file_run. cbv zeta.
  destruct (verdict E (clock p)); cbn [fst snd]; try discriminate.
  destruct (Z_le_gt_dec size 0) as [Hdone|Hmore].
  - rewrite write_loop_done by done. intros _. cbn [fst disk].
    replace (Z.to_nat size) with 0%nat by lia. apply lookup_insert_eq.
  - intros Hret.
    rewrite (write_loop_content E gas f _ (chunk_size_positive size ltac:(lia)) size _ []);
      [reflexivity | lia | cbn; apply lookup_insert_eq | done].
Qed.

Lemma make_file_run gas i p :
  make_file E cfg gas i p
  = create_file E gas (file_path (OUTPUT_DIR cfg) (batch (vars p)) i) (file_size (vars p)) p.
Proof. reflexivity. Qed.

(** The [for] loop writes to the paths of its own batch and indices,
    and to nothing else, however it ends. *)
Lemma for_range_untouched gas n :
  forall from p g,
    (forall i, from <= i < from + Z.of_nat n ->
               g <> file_path (OUTPUT_DIR cfg) (batch (vars p)) i) ->
    disk (fst (for_range from n (make_file E cfg gas) p)) !! g = disk p !! g.
Proof.
  induction n as [|n IH]; intros from p g Hg; cbn [for_range]; [reflexivity|].
  rewrite bind_run, make_file_run.
  destruct (create_file_frame E gas (file_path (OUTPUT_DIR cfg) (batch (vars p)) from)
              (file_size (vars p)) p) as (Hv & _ & Hd).
  specialize (Hd g (Hg from ltac:(lia))).
  destruct (create_file E gas _ (file_size (vars p)) p) as [q [[]|e|]]; cbn [fst] in *;
    try exact Hd.
  rewrite IH; [exact Hd|]. intros i Hi. rewrite Hv. apply Hg. lia.
Qed.

(** When the [for] loop completes, every file of its range is there
    with the size of the batch. *)
Lemma for_range_files gas n :
  forall from p,
    snd (for_range from n (make_file E cfg gas) p) = Ret tt ->
    forall i, from <= i < from + Z.of_nat n ->
      exists content,
        disk (fst (for_range from n (make_file E cfg gas) p))
          !! file_path (OUTPUT_DIR cfg) (batch (vars p)) i = Some content /\
        length content = Z.to_nat (file_size (vars p)).
Proof.
  induction n as [|n IH]; intros from p Hret i Hi; [lia|].
  revert Hret. cbn [for_range]. rewrite bind_run, make_file_run.
  destruct (create_file_frame E gas (file_path (OUTPUT_DIR cfg) (batch (vars p)) from)
              (file_size (vars p)) p) as (Hv & _ & _).
  pose proof (create_file_content gas (file_path (OUTPUT_DIR cfg) (batch (vars p)) from)
                (file_size (vars p)) p) as Hcontent.
  destruct (create_file E gas _ (file_size (vars p)) p) as [q [[]|e|]]; cbn [fst snd] in *;
    try discriminate.
  intros Hret. destruct (Z.eq_dec i from) as [->|Hne].
  - exists (draw E (drawn p) (Z.to_nat (file_size (vars p)))).
    split; [|apply draw_length].
    rewrite for_range_untouched; [by apply Hcontent|].
    intros j Hj Heq. rewrite Hv in Heq. apply file_path_inj in Heq. lia.
  - destruct (IH (from + 1) q Hret i ltac:(lia)) as (content & Hfile & Hlen).
    exists content. by rewrite <- Hv.
Qed.

(** A turn of the batch loop writes only to the paths of the batch it
    starts, however it ends. *)
Lemma loop_body_untouched gas p g :
  (forall i, g <> file_path (OUTPUT_DIR cfg) (batch (vars p) + 1) i) ->
  disk (fst (loop_body E cfg gas p)) !! g = disk p !! g.
Proof.
  intros Hg. rewrite loop_body_unfold. cbv zeta.
  destruct (format_size (file_size (next_batch (vars p)))) as [size|e]; [|reflexivity].
  destruct (verdict E (clock p)); [|reflexivity..].
  match goal with |- context [for_range ?a ?n ?f ?q] =>
    pose proof (for_range_untouched gas n a q g) as Hfor;
    destruct (for_range a n f q) as [p2 r2] end.
  cbn [fst vars disk next_batch batch] in Hfor. specialize (Hfor (fun i _ => Hg i)).
  destruct r2 as [[]|e|]; [|exact Hfor..].
  destruct (verdict E (clock p2)); [|exact Hfor..].
  by destruct (format_size _).
Qed.

Lemma loop_body_files gas p :
  snd (loop_body E cfg gas p) = Ret tt ->
  forall i, 0 <= i < num_files (vars p) ->
    exists content,
      disk (fst (loop_body E cfg gas p))
        !! file_path (OUTPUT_DIR cfg) (batch (vars p) + 1) i = Some content /\
      length content = Z.to_nat (file_size (vars p)).
Proof.
  rewrite loop_body_unfold. cbv zeta.
  destruct (format_size (file_size (next_batch (vars p)))) as [size|e]; [|discriminate].
  destruct (verdict E (clock p)); [|discriminate..].
  match goal with |- context [for_range ?a ?n ?f ?q] =>
    pose proof (for_range_files gas n a q) as Hfor;
    destruct (for_range a n f q) as [p2 r2] end.
  cbn [fst snd vars disk next_batch batch num_files file_size] in Hfor.
  destruct r2 as [[]|e|]; try discriminate.
  destruct (verdict E (clock p2)); [|discriminate..].
  destruct (format_size _); [|discriminate].
  cbn [fst snd disk]. intros _ i Hi. apply (Hfor eq_refl). lia.
Qed.

(** After [k] batches, the batches that follow write only to paths of
    batches numbered above [k]. *)
Lemma batches_untouched gas n :
  forall k p g,
    vars p = reached cfg k ->
    (forall j i, (k < j)%nat -> g <> file_path (OUTPUT_DIR cfg) (Z.of_nat j) i) ->
    disk (fst (batches E cfg gas n p)) !! g = disk p !! g.
Proof.
  induction n as [|n IH]; intros k p g Hp Hg; cbn [batches]; [reflexivity|].
  rewrite bind_run.
  assert (Hturn : disk (fst (loop_body E cfg gas p)) !! g = disk p !! g).
  { apply loop_body_untouched. intros i. rewrite Hp. cbn [reached batch].
    replace (Z.of_nat k + 1) with (Z.of_nat (S k)) by lia. apply Hg. lia. }
  pose proof (loop_body_outcome E cfg gas p) as Hbody. cbv zeta in Hbody.
  destruct (loop_body E cfg gas p) as [q [[]|e|]]; cbn [fst snd] in *; try exact Hturn.
  destruct Hbody as [Hq _]. rewrite Hp, step_reached in Hq.
  rewrite (IH (S k) q g Hq); [exact Hturn|]. intros j i Hj. apply Hg. lia.
Qed.

Lemma batches_files gas n :
  forall k p,
    vars p = reached cfg k ->
    snd (batches E cfg gas n p) = Ret tt ->
    forall j i, (k < j <= k + n)%nat -> 0 <= i < planned_files cfg j ->
      exists content,
        disk (fst (batches E cfg gas n p))
          !! file_path (OUTPUT_DIR cfg) (Z.of_nat j) i = Some content /\
        length content = Z.to_nat (planned_size cfg j).
Proof.
  induction n as [|n IH]; intros k p Hp Hret j i Hj Hi; [lia|].
  revert Hret. cbn [batches]. rewrite bind_run.
  pose proof (loop_body_outcome E cfg gas p) as Hbody. cbv zeta in Hbody.
  pose proof (loop_body_files gas p) as Hfiles.
  destruct (loop_body E cfg gas p) as [q [[]|e|]]; cbn [fst snd] in *; try discriminate.
  destruct Hbody as [Hq _]. rewrite Hp, step_reached in Hq.
  intros Hret. destruct (Nat.eq_dec j (S k)) as [->|Hne].
  - destruct (Hfiles eq_refl i) as (content & Hfile & Hlen).
    { rewrite Hp. cbn [reached num_files]. unfold planned_files in Hi.
      replace (Z.of_nat (S k) - 1) with (Z.of_nat k) in Hi by lia. exact Hi. }
    exists content. split.
    + rewrite (batches_untouched gas n (S k) q _ Hq).
      * rewrite <- Hfile, Hp. cbn [reached batch]. do 2 f_equal. lia.
      * intros j' i' Hj' Heq. apply file_path_inj in Heq. lia.
    + rewrite Hlen, Hp. unfold planned_size. cbn [reached file_size]. do 3 f_equal. lia.
  - apply (IH (S k) q Hq Hret). all: lia || done.
Qed.

(** Where a run of batches that ends on an exception stopped: some
    number of batches completed, and the next turn raised. *)
Lemma batches_stop_point gas n :
  forall p e,
    snd (batches E cfg gas n p) = Raise e ->
    exists k, (k < n)%nat /\
      snd (batches E cfg gas k p) = Ret tt /\
      loop_body E cfg gas (fst (batches E cfg gas k p))
      = (fst (batches E cfg gas n p), Raise e).
Proof.
  induction n as [|n IH]; intros p e; cbn [batches]; [discriminate|].
  rewrite bind_run.
  destruct (loop_body E cfg gas p) as [q [[]|e'|]] eqn:Hturn; cbn [fst snd];
    try discriminate.
  - intros Hraise. destruct (IH q e Hraise) as (k & Hk & Hret & Hstop).
    exists (S k). split; [lia|]. cbn [batches]. rewrite bind_run, Hturn. auto.
  - intros [= ->]. exists 0%nat. split; [lia|]. cbn. by rewrite Hturn.
Qed.

End Disk.

(** X1.  Once the first [n] batches are complete, every file they
    planned is on the disk: for each batch [j] from 1 to [n] and each
    index [i] below the number of files planned for [j], the file
    named after [(j, i)] exists in the output directory and has the
    size planned for batch [j] (no byte at all when that size is
    negative). *)
Theorem completed_batches_on_disk E cfg gas n p :
  vars p = initial cfg ->
  snd (batches E cfg gas n p) = Ret tt ->
  forall j i, (1 <= j <= n)%nat -> 0 <= i < planned_files cfg j ->
    exists content,
      disk (fst (batches E cfg gas n p))
        !! file_path (OUTPUT_DIR cfg) (Z.of_nat j) i = Some content /\
      length content = Z.to_nat (planned_size cfg j).
Proof.
  intros Hp Hret j i Hj Hi. rewrite initial_reached in Hp.
  apply (batches_files E cfg gas n 0 p Hp Hret); [lia | exact Hi].
Qed.

Lemma completed_batches_on_disk_witness :
  vars (at_loop_entry settings) = initial settings /\
  snd (batches quiet settings 1 2 (at_loop_entry settings)) = Ret tt /\
  exists content,
    disk (fst (batches quiet settings 1 2 (at_loop_entry settings)))
      !! file_path "generated_files" 2 9 = Some content /\
    length content = 2048%nat.
Proof.
  assert (Hret : snd (batches quiet settings 1 2 (at_loop_entry settings)) = Ret tt)
    by (vm_compute; reflexivity).
  split; [reflexivity|]. split; [exact Hret|].
  destruct (completed_batches_on_disk quiet settings 1 2 (at_loop_entry settings)
              eq_refl Hret 2%nat 9) as (content & Hfile & Hlen).
  - lia.
  - unfold planned_files. cbn. lia.
  - exists content. split; [exact Hfile | exact Hlen].
Defined.

(** ** [main] from start to stop *)

Section WholeRun.

Variable E : env.
Variable cfg : config.

(** The start of [main] written out. *)
Lemma startup_unfold p :
  startup E cfg p =
  let log := calls p ++ [SysMkdir (OUTPUT_DIR cfg)] in
  let head := [rule; "FILE GENERATOR - EXPONENTIAL GROWTH"; rule;
               "Output directory: " +:+ OUTPUT_DIR cfg;
               "Initial files: " +:+ Text.str (INITIAL_FILES cfg)] in
  match verdict E (clock p) with
  | Proceed =>
      match format_size (INITIAL_FILE_SIZE cfg) with
      | Val size =>
          (Proc (disk p)
                (stdout p ++ head ++ ["Initial size: " +:+ size; "Press Ctrl+C to stop"; rule; ""])
                log (S (clock p)) (drawn p) (vars p), Ret tt)
      | Exc e => (Proc (disk p) (stdout p ++ head) log (S (clock p)) (drawn p) (vars p), Raise e)
      end
  | Interrupt =>
      (Proc (disk p) (stdout p) log (S (clock p)) (drawn p) (vars p), Raise KeyboardInterrupt)
  | Fault msg =>
      (Proc (disk p) (stdout p) log (S (clock p)) (drawn p) (vars p), Raise (OSError msg))
  end.
Proof.
  cbv zeta. unfold startup, mkdir. rewrite bind_run, sys_run. cbv zeta.
  destruct (verdict E (clock p)); [|reflexivity..].
  rewrite !print_run, lift_run. cbn [disk stdout calls clock drawn vars].
  destruct (format_size (INITIAL_FILE_SIZE cfg)) as [size|e].
  - rewrite !print_run. unfold print. cbn [disk stdout calls clock drawn vars].
    by rewrite <- !app_assoc.
  - by rewrite <- !app_assoc.
Qed.

Lemma main_unfold gas fuel p :
  main E cfg gas fuel p =
  match startup E cfg p with
  | (q, Ret _) =>
      try_except (while_True E cfg gas fuel) handlers
        (Proc (disk q) (stdout q) (calls q) (clock q) (drawn q) (initial cfg))
  | (q, Raise e) => (q, Raise e)
  | (q, OutOfGas) => (q, OutOfGas)
  end.
Proof.
  unfold main. rewrite bind_run.
  destruct (startup E cfg p) as [q [[]|e|]]; [|reflexivity..].
  by rewrite set_vars_run.
Qed.

Lemma startup_disk p : disk (fst (startup E cfg p)) = disk p.
Proof.
  rewrite startup_unfold. cbv zeta.
  destruct (verdict E (clock p)); [|reflexivity..].
  by destruct (format_size (INITIAL_FILE_SIZE cfg)).
Qed.

Lemma entered_disk p : disk (entered E cfg p) = disk p.
Proof.
  unfold entered. rewrite bind_run. pose proof (startup_disk p) as Hd.
  by destruct (startup E cfg p) as [q [[]|e|]].
Qed.

(** The handlers only print. *)
Lemma handlers_keep e p :
  snd (handlers e p) = Ret tt /\
  disk (fst (handlers e p)) = disk p /\
  calls (fst (handlers e p)) = calls p /\
  vars (fst (handlers e p)) = vars p.
Proof.
  destruct e; cbn [handlers is_Exception];
    rewrite ?on_interrupt_run, ?on_error_run; by cbn.
Qed.

(** What [main] leaves behind when the loop stops on an exception. *)
Lemma main_after_stop gas fuel p e :
  snd (startup E cfg p) = Ret tt ->
  snd (while_True E cfg gas fuel (entered E cfg p)) = Raise e ->
  snd (main E cfg gas fuel p) = Ret tt /\
  disk (fst (main E cfg gas fuel p))
  = disk (fst (while_True E cfg gas fuel (entered E cfg p))) /\
  calls (fst (main E cfg gas fuel p))
  = calls (fst (while_True E cfg gas fuel (entered E cfg p))) /\
  vars (fst (main E cfg gas fuel p))
  = vars (fst (while_True E cfg gas fuel (entered E cfg p))).
Proof.
  intros Hstart Hstop. rewrite (main_enters E cfg gas fuel p Hstart). unfold try_except.
  destruct (while_True E cfg gas fuel (entered E cfg p)) as [q r]; cbn [fst snd] in *.
  subst r. apply handlers_keep.
Qed.

(** The loop stopped by an exception: the batches before completed and
    one more turn raised. *)
Lemma while_True_stop_point gas fuel p e :
  snd (while_True E cfg gas fuel p) = Raise e ->
  exists k, (k < fuel)%nat /\
    snd (batches E cfg gas k p) = Ret tt /\
    loop_body E cfg gas (fst (batches E cfg gas k p))
    = (fst (while_True E cfg gas fuel p), Raise e).
Proof.
  unfold while_True. rewrite bind_run.
  pose proof (batches_stop_point E cfg gas fuel p e) as Hpoint.
  destruct (batches E cfg gas fuel p) as [q [[]|e'|]]; cbn [fst snd] in *; try discriminate.
  intros [= ->]. by apply Hpoint.
Qed.

End WholeRun.

(** X2.  When an exception stops the loop, [main] deletes nothing on
    its way out: if the batch that was running is number [k + 1], then
    every file of batches 1 to [k] is still on the disk with its
    planned size when [main] returns. *)
Theorem stop_keeps_completed_batches E cfg gas fuel p e :
  snd (startup E cfg p) = Ret tt ->
  snd (while_True E cfg gas fuel (entered E cfg p)) = Raise e ->
  exists k, (k < fuel)%nat /\
    batch (vars (fst (main E cfg gas fuel p))) = Z.of_nat (S k) /\
    forall j i, (1 <= j <= k)%nat -> 0 <= i < planned_files cfg j ->
      exists content,
        disk (fst (main E cfg gas fuel p))
          !! file_path (OUTPUT_DIR cfg) (Z.of_nat j) i = Some content /\
        length content = Z.to_nat (planned_size cfg j).
Proof.
  intros Hstart Hstop.
  destruct (main_after_stop E cfg gas fuel p e Hstart Hstop) as (_ & Hdisk & _ & Hvars).
  destruct (while_True_stop_point E cfg gas fuel _ e Hstop) as (k & Hk & Hret & Hturn).
  pose proof (entered_vars E cfg p Hstart) as Hentered.
  rewrite initial_reached in Hentered.
  pose proof (batches_outcome E cfg gas k 0 _ Hentered) as Hout. rewrite Hret in Hout.
  cbn [Nat.add] in Hout.
  set (q := fst (batches E cfg gas k (entered E cfg p))) in *.
  exists k. split; [exact Hk|]. rewrite Hdisk, Hvars.
  replace (fst (while_True E cfg gas fuel (entered E cfg p)))
    with (fst (loop_body E cfg gas q)) by (by rewrite Hturn).
  split.
  - pose proof (loop_body_outcome E cfg gas q) as Hbody. cbv zeta in Hbody.
    rewrite Hturn in Hbody. cbn [fst snd] in Hbody. rewrite Hturn. cbn [fst].
    rewrite Hout in Hbody.
    destruct Hbody as [-> | [-> | ->]]; cbn [double count_batch next_batch reached batch]; lia.
  - intros j i Hj Hi.
    destruct (batches_files E cfg gas k 0 _ Hentered Hret j i ltac:(lia) Hi)
      as (content & Hfile & Hlen).
    exists content. split; [|exact Hlen].
    rewrite loop_body_untouched; [exact Hfile|].
    intros i' Heq. fold q in Heq. rewrite Hout in Heq. cbn [reached batch] in Heq.
    apply file_path_inj in Heq. lia.
Qed.

Lemma stop_keeps_completed_batches_witness :
  let E := strike 38 Interrupt in
  snd (startup E settings (boot ∅)) = Ret tt /\
  snd (while_True E settings 1 3 (entered E settings (boot ∅))) = Raise KeyboardInterrupt /\
  exists content,
    disk (fst (main E settings 1 3 (boot ∅))) !! file_path "generated_files" 2 9
    = Some content /\
    length content = 2048%nat.
Proof.
  intros E.
  assert (Hstart : snd (startup E settings (boot ∅)) = Ret tt) by (vm_compute; reflexivity).
  assert (Hstop : snd (while_True E settings 1 3 (entered E settings (boot ∅)))
                  = Raise KeyboardInterrupt)
    by (vm_compute; reflexivity).
  assert (Hbatch : batch (vars (fst (main E settings 1 3 (boot ∅)))) = 3)
    by (vm_compute; reflexivity).
  split; [exact Hstart|]. split; [exact Hstop|].
  destruct (stop_keeps_completed_batches E settings 1 3 (boot ∅) _ Hstart Hstop)
    as (k & _ & Hk & Hfiles).
  rewrite Hbatch in Hk. assert (k = 2%nat) as -> by lia.
  destruct (Hfiles 2%nat 9) as (content & Hfile & Hlen).
  - lia.
  - unfold planned_files. cbn. lia.
  - exists content. split; [exact Hfile | exact Hlen].
Defined.

(** ** The calls of a run *)

Section Log.

Variable E : env.
Variable cfg : config.





End Log.



(** ** Counting the calls of a run *)

Section Tallies.

Variable E : env.
Variable cfg : config.

Lemma tally_app which a b : tally which (a ++ b) = (tally which a + tally which b)%nat.
Proof. unfold tally. by rewrite List.filter_app, length_app. Qed.

Lemma written_app a b : written (a ++ b) = written a + written b.
Proof.
  unfold written, sumZ. rewrite map_app, foldr_app.
  induction (map _ a) as [|x l IH]; cbn; lia.
Qed.

Lemma tally_writes which f ws :
  (forall len, which (SysWrite f len) = false) ->
  tally which (map (fun w => SysWrite f (Z.to_nat w)) ws) = 0%nat.
Proof.
  intros Hno. unfold tally. induction ws as [|w ws IH]; [reflexivity|].
  cbn [map List.filter]. by rewrite Hno.
Qed.

Lemma written_writes f ws :
  Forall (fun w => 0 < w) ws ->
  written (map (fun w => SysWrite f (Z.to_nat w)) ws) = sumZ ws.
Proof.
  unfold written, sumZ. induction 1 as [|w ws Hw _ IH]; [reflexivity|].
  cbn [map foldr]. rewrite IH. lia.
Qed.

(** The calls of one [create_file]: the opening of the file, then
    writes that carry [size] bytes in all when the call returns. *)
Lemma create_file_calls gas f size p :
  exists ws,
    calls (fst (create_file E gas f size p))
    = calls p ++ SysOpen f :: map (fun w => SysWrite f (Z.to_nat w)) ws /\
    Forall (fun w => 0 < w) ws /\
    (snd (create_file E gas f size p) = Ret tt -> sumZ ws = Z.max 0 size).
Proof.
  rewrite create_file_run. cbv zeta.
  destruct (verdict E (clock p)); cbn [fst snd];
    [| exists []; repeat split; (done || discriminate) ..].
  destruct (Z_le_gt_dec size 0) as [Hdone|Hmore].
  - rewrite write_loop_done by done. exists []. cbn. repeat split; [done | lia].
  - assert (Hcs : 0 < Z.min size MiB) by (apply chunk_size_positive; lia).
    edestruct (write_loop_calls E gas f (Z.min size MiB) Hcs size) as (ws & Hcalls & Hall & Hplan);
      [lia|].
    exists ws. rewrite Hcalls. cbn [calls]. rewrite <- app_assoc.
    split; [reflexivity|]. split.
    + eapply Forall_impl; [exact Hall|]. cbn. intros w Hw. lia.
    + intros Hret. rewrite (Hplan Hret), chunks_of_chunk_size, sumZ_chunk_plan by lia. lia.
Qed.

Lemma create_file_tally gas f size p :
  tally is_open (calls (fst (create_file E gas f size p))) = S (tally is_open (calls p)) /\
  tally is_sleep (calls (fst (create_file E gas f size p))) = tally is_sleep (calls p) /\
  (snd (create_file E gas f size p) = Ret tt ->
   written (calls (fst (create_file E gas f size p))) = written (calls p) + Z.max 0 size).
Proof.
  destruct (create_file_calls gas f size p) as (ws & -> & Hpos & Hsum).
  change (SysOpen f :: ?l) with ([SysOpen f] ++ l).
  rewrite !tally_app, !written_app, !tally_writes, written_writes by done.
  cbn [tally List.filter is_open is_sleep length]. repeat split; try lia.
  intros Hret. rewrite (Hsum Hret). unfold written. cbn. lia.
Qed.

Lemma for_range_tally gas n :
  forall from p,
    snd (for_range from n (make_file E cfg gas) p) = Ret tt ->
    let p' := fst (for_range from n (make_file E cfg gas) p) in
    tally is_open (calls p') = (tally is_open (calls p) + n)%nat /\
    tally is_sleep (calls p') = tally is_sleep (calls p) /\
    written (calls p') = written (calls p) + Z.of_nat n * Z.max 0 (file_size (vars p)).
Proof.
  induction n as [|n IH]; intros from p; cbn [for_range].
  - intros _. cbn. repeat split; lia.
  - rewrite bind_run, make_file_run.
    destruct (create_file_frame E gas (file_path (OUTPUT_DIR cfg) (batch (vars p)) from)
                (file_size (vars p)) p) as (Hv & _ & _).
    destruct (create_file_tally gas (file_path (OUTPUT_DIR cfg) (batch (vars p)) from)
                (file_size (vars p)) p) as (Hopen & Hsleep & Hbytes).
    destruct (create_file E gas _ (file_size (vars p)) p) as [q [[]|e|]]; cbn [fst snd] in *;
      try discriminate.
    intros Hret. destruct (IH (from + 1) q Hret) as (Hopen' & Hsleep' & Hbytes').
    cbv zeta. rewrite Hopen', Hsleep', Hbytes', Hopen, Hsleep, (Hbytes eq_refl), Hv.
    repeat split; lia.
Qed.

Lemma loop_body_tally gas p :
  snd (loop_body E cfg gas p) = Ret tt ->
  let p' := fst (loop_body E cfg gas p) in
  tally is_open (calls p') = (tally is_open (calls p) + Z.to_nat (num_files (vars p)))%nat /\
  tally is_sleep (calls p') = S (tally is_sleep (calls p)) /\
  written (calls p')
  = written (calls p) + Z.of_nat (Z.to_nat (num_files (vars p))) * Z.max 0 (file_size (vars p)).
Proof.
  rewrite loop_body_unfold. cbv zeta.
  destruct (format_size (file_size (next_batch (vars p)))) as [size|e]; [|discriminate].
  destruct (verdict E (clock p)); [|discriminate..].
  match goal with |- context [for_range ?a ?n ?f ?q] =>
    pose proof (for_range_tally gas n a q) as Hfor;
    destruct (for_range a n f q) as [p2 r2] end.
  cbn [fst snd vars calls next_batch num_files file_size] in Hfor.
  destruct r2 as [[]|e|]; try discriminate.
  destruct (verdict E (clock p2)); [|discriminate..].
  destruct (format_size _); [|discriminate].
  cbn [fst snd calls]. intros _. destruct (Hfor eq_refl) as (Hopen & Hsleep & Hbytes).
  rewrite !tally_app, written_app, Hopen, Hsleep, Hbytes.
  cbn. unfold written. cbn. repeat split; lia.
Qed.

(** The calls made by [n] complete batches that follow [k] others. *)
Lemma batches_tally gas n :
  forall k p,
    vars p = reached cfg k ->
    0 <= INITIAL_FILES cfg -> 0 <= INITIAL_FILE_SIZE cfg ->
    snd (batches E cfg gas n p) = Ret tt ->
    let p' := fst (batches E cfg gas n p) in
    Z.of_nat (tally is_open (calls p'))
    = Z.of_nat (tally is_open (calls p))
      + INITIAL_FILES cfg * (2 ^ Z.of_nat (k + n) - 2 ^ Z.of_nat k) /\
    tally is_sleep (calls p') = (tally is_sleep (calls p) + n)%nat /\
    3 * written (calls p')
    = 3 * written (calls p)
      + INITIAL_FILES cfg * INITIAL_FILE_SIZE cfg * (4 ^ Z.of_nat (k + n) - 4 ^ Z.of_nat k).
Proof.
  induction n as [|n IH]; intros k p Hp Hfiles Hsize; cbn [batches].
  - intros _. cbn. rewrite Nat.add_0_r. repeat split; lia.
  - rewrite bind_run.
    pose proof (loop_body_outcome E cfg gas p) as Hbody. cbv zeta in Hbody.
    pose proof (loop_body_tally gas p) as Hturn. cbv zeta in Hturn.
    destruct (loop_body E cfg gas p) as [q [[]|e|]]; cbn [fst snd] in *; try discriminate.
    destruct Hbody as [Hq _]. rewrite Hp, step_reached in Hq.
    destruct (Hturn eq_refl) as (Hopen & Hsleep & Hbytes).
    intros Hret. destruct (IH (S k) q Hq Hfiles Hsize Hret) as (Hopen' & Hsleep' & Hbytes').
    cbv zeta. rewrite Hopen', Hsleep', Hbytes', Hopen, Hsleep, Hbytes, Hp.
    cbn [reached num_files file_size].
    assert (Hpow : 0 < 2 ^ Z.of_nat k) by (apply Z.pow_pos_nonneg; lia).
    assert (Hsquare : 4 ^ Z.of_nat k = 2 ^ Z.of_nat k * 2 ^ Z.of_nat k)
      by (change 4 with (2 * 2); apply Z.pow_mul_l).
    replace (S k + n)%nat with (k + S n)%nat by lia.
    rewrite (Nat2Z.inj_succ k), !Z.pow_succ_r, Hsquare by lia.
    set (u := 2 ^ Z.of_nat k) in *.
    set (a := 2 ^ Z.of_nat (k + S n)) in *. set (b := 4 ^ Z.of_nat (k + S n)) in *.
    rewrite Z.max_r by nia. repeat split; nia.
Qed.

End Tallies.

(** X4.  After [n] complete batches the running total of files that
    [main] keeps and prints is the number of files it has opened, and
    it has paused exactly [n] times, once after each batch (for
    settings that are not negative). *)
Theorem total_files_counts_the_files E cfg gas n p :
  vars p = initial cfg ->
  0 <= INITIAL_FILES cfg -> 0 <= INITIAL_FILE_SIZE cfg ->
  snd (batches E cfg gas n p) = Ret tt ->
  let p' := fst (batches E cfg gas n p) in
  Z.of_nat (tally is_open (calls p')) = Z.of_nat (tally is_open (calls p)) + total_files (vars p') /\
  tally is_sleep (calls p') = (tally is_sleep (calls p) + n)%nat.
Proof.
  intros Hp Hfiles Hsize Hret p'. subst p'. rewrite initial_reached in Hp.
  destruct (batches_tally E cfg gas n 0 p Hp Hfiles Hsize Hret) as (Hopen & Hsleep & _).
  pose proof (batches_outcome E cfg gas n 0 p Hp) as Hout. rewrite Hret in Hout.
  rewrite Hout, Hopen, Hsleep. cbn [reached total_files Nat.add]. split; [|reflexivity].
  change (2 ^ Z.of_nat 0) with 1. lia.
Qed.

Lemma total_files_counts_the_files_witness :
  vars (at_loop_entry settings) = initial settings /\
  0 <= INITIAL_FILES settings /\ 0 <= INITIAL_FILE_SIZE settings /\
  snd (batches quiet settings 1 2 (at_loop_entry settings)) = Ret tt /\
  tally is_open (calls (fst (batches quiet settings 1 2 (at_loop_entry settings)))) = 15%nat.
Proof.
  assert (Hret : snd (batches quiet settings 1 2 (at_loop_entry settings)) = Ret tt)
    by (vm_compute; reflexivity).
  assert (H5 : 0 <= INITIAL_FILES settings) by (cbn; lia).
  assert (H1024 : 0 <= INITIAL_FILE_SIZE settings) by (cbn; lia).
  destruct (total_files_counts_the_files quiet settings 1 2 (at_loop_entry settings)
              eq_refl H5 H1024 Hret) as [Hopen _].
  assert (Hfifteen : total_files (vars (fst (batches quiet settings 1 2
                                               (at_loop_entry settings)))) = 15)
    by (vm_compute; reflexivity).
  split; [reflexivity|]. split; [exact H5|]. split; [exact H1024|]. split; [exact Hret|].
  rewrite Hfifteen in Hopen. change (calls (at_loop_entry settings)) with (@nil syscall) in Hopen.
  cbn [tally List.filter length] in Hopen. lia.
Defined.

(** X5.  After [n] complete batches the writes of the run have carried
    exactly the sum over the batches of files planned times size
    planned, [INITIAL_FILES * INITIAL_FILE_SIZE * (4^n - 1) / 3] bytes
    (for settings that are not negative). *)
Theorem bytes_written_by_the_run E cfg gas n p :
  vars p = initial cfg ->
  0 <= INITIAL_FILES cfg -> 0 <= INITIAL_FILE_SIZE cfg ->
  snd (batches E cfg gas n p) = Ret tt ->
  written (calls (fst (batches E cfg gas n p))) = written (calls p) + bytes_written cfg n /\
  3 * bytes_written cfg n = INITIAL_FILES cfg * INITIAL_FILE_SIZE cfg * (4 ^ Z.of_nat n - 1).
Proof.
  intros Hp Hfiles Hsize Hret. rewrite initial_reached in Hp.
  destruct (batches_tally E cfg gas n 0 p Hp Hfiles Hsize Hret) as (_ & _ & Hbytes).
  pose proof (bytes_written_closed cfg n) as Hclosed.
  cbn [Nat.add] in Hbytes. change (4 ^ Z.of_nat 0) with 1 in Hbytes.
  split; [lia | exact Hclosed].
Qed.

Lemma bytes_written_by_the_run_witness :
  vars (at_loop_entry settings) = initial settings /\
  0 <= INITIAL_FILES settings /\ 0 <= INITIAL_FILE_SIZE settings /\
  snd (batches quiet settings 1 2 (at_loop_entry settings)) = Ret tt /\
  written (calls (fst (batches quiet settings 1 2 (at_loop_entry settings)))) = 25600.
Proof.
  assert (Hret : snd (batches quiet settings 1 2 (at_loop_entry settings)) = Ret tt)
    by (vm_compute; reflexivity).
  assert (H5 : 0 <= INITIAL_FILES settings) by (cbn; lia).
  assert (H1024 : 0 <= INITIAL_FILE_SIZE settings) by (cbn; lia).
  destruct (bytes_written_by_the_run quiet settings 1 2 (at_loop_entry settings)
              eq_refl H5 H1024 Hret) as [Hbytes _].
  split; [reflexivity|]. split; [exact H5|]. split; [exact H1024|]. split; [exact Hret|].
  rewrite Hbytes. vm_compute. reflexivity.
Defined.

(** ** Where exceptions come from *)

Section Exceptions.

Variable E : env.
Variable cfg : config.

Lemma write_loop_raise gas f cs :
  0 < cs ->
  forall rem p e,
    snd (write_loop E gas f cs rem p) = Raise e ->
    (clock p < clock (fst (write_loop E gas f cs rem p)))%nat /\
    injected E (Nat.pred (clock (fst (write_loop E gas f cs rem p)))) e.
Proof.
  intros Hcs. induction gas as [|gas IH]; intros rem p e;
    (destruct (Z_le_gt_dec rem 0) as [Hdone|Hmore];
     [rewrite write_loop_done by lia; discriminate|]).
  - rewrite write_loop_spent by lia. discriminate.
  - rewrite write_loop_turn by lia. cbv zeta.
    destruct (verdict E (clock p)) eqn:Hverdict; cbn [fst snd clock].
    + intros Hraise. destruct (IH _ _ e Hraise) as [Hlater Hwhy].
      cbn [clock] in Hlater. split; [lia | exact Hwhy].
    + intros [= <-]. split; [lia|]. left. cbn. auto.
    + intros [= <-]. split; [lia|]. right. cbn. eauto.
Qed.

Lemma create_file_raise gas f size p e :
  snd (create_file E gas f size p) = Raise e ->
  exists k, (clock p <= k < clock (fst (create_file E gas f size p)))%nat /\ injected E k e.
Proof.
  rewrite create_file_run. cbv zeta.
  destruct (verdict E (clock p)) eqn:Hverdict; cbn [fst snd clock].
  - destruct (Z_le_gt_dec size 0) as [Hdone|Hmore];
      [rewrite write_loop_done by lia; discriminate|].
    intros Hraise.
    destruct (write_loop_raise gas f _ (chunk_size_positive size ltac:(lia)) _ _ e Hraise)
      as [Hlater Hwhy].
    cbn [clock] in Hlater. eexists. split; [|exact Hwhy]. lia.
  - intros [= <-]. exists (clock p). split; [lia|]. left. auto.
  - intros [= <-]. exists (clock p). split; [lia|]. right. eauto.
Qed.

Lemma of_int_exc z e : Float.of_int z = Exc e -> e = too_large.
Proof.
  unfold Float.of_int. destruct (Float.of_Z z); intros H; try discriminate H.
  by injection H as <-.
Qed.

Lemma format_size_from_exc us :
  forall v e, format_size_from us v = Exc e -> e = too_large.
Proof.
  assert (Hfmt : forall v e s, except_bind (fmt_2f v) (fun t => Val (t +:+ s)) = Exc e ->
                               e = too_large).
  { intros [z|x] e s; cbn; [|discriminate].
    destruct (Float.of_int z) eqn:Hz; cbn; [discriminate|].
    intros [= <-]. by apply of_int_exc in Hz. }
  induction us as [|unit rest IH]; intros v e; cbn [format_size_from]; [apply Hfmt|].
  destruct (lt_1024 v); [apply Hfmt|].
  destruct v as [z|x]; cbn [div_1024 except_bind]; [|apply IH].
  destruct (Float.of_int z) eqn:Hz; cbn [except_bind]; [apply IH|].
  intros [= <-]. by apply of_int_exc in Hz.
Qed.

Lemma format_size_exc z e : format_size z = Exc e -> e = too_large.
Proof. apply format_size_from_exc. Qed.

End Exceptions.

(** X6.  [create_file] raises nothing of its own: when a call ends on
    an exception, that exception was injected by the environment at one
    of the calls it made, a [KeyboardInterrupt] for an interrupt and an
    [OSError] with the system's message for a failure.  In particular
    [os.urandom] is never given a negative count, whatever the size. *)
Theorem create_file_raises_what_it_meets E gas f size p e :
  snd (create_file E gas f size p) = Raise e ->
  (exists k, (clock p <= k < clock (fst (create_file E gas f size p)))%nat /\
             injected E k e) /\
  (e = KeyboardInterrupt \/ exists msg, e = OSError msg).
Proof.
  intros Hraise. destruct (create_file_raise E gas f size p e Hraise) as (k & Hk & Hwhy).
  split; [eauto|]. destruct Hwhy as [[_ ->] | (msg & _ & ->)]; eauto.
Qed.

Lemma create_file_raises_what_it_meets_witness :
  snd (create_file (strike 1 (Fault "[Errno 28] No space left on device")) 1 "out.dat" 1024
         (boot ∅))
  = Raise (OSError "[Errno 28] No space left on device") /\
  exists k, injected (strike 1 (Fault "[Errno 28] No space left on device")) k
                     (OSError "[Errno 28] No space left on device").
Proof.
  assert (Hraise : snd (create_file (strike 1 (Fault "[Errno 28] No space left on device")) 1
                          "out.dat" 1024 (boot ∅))
                   = Raise (OSError "[Errno 28] No space left on device"))
    by (vm_compute; reflexivity).
  split; [exact Hraise|].
  destruct (create_file_raises_what_it_meets _ _ _ _ _ _ Hraise) as [(k & _ & Hwhy) _].
  eauto.
Defined.

(** X7.  [format_size] raises one exception only, whatever integer it
    is given: the [OverflowError] of the conversion to [float], with
    the text [int too large to convert to float], when the integer is
    too large for that conversion. *)
Theorem format_size_raises_only_overflow z e :
  format_size z = Exc e -> e = too_large.
Proof.
  unfold format_size. apply format_size_from_exc.
Qed.

Lemma format_size_raises_only_overflow_witness :
  format_size (2 ^ 1024) = Exc (OverflowError "int too large to convert to float").
Proof.
  destruct (format_size (2 ^ 1024)) as [text|e] eqn:Hsize.
  - vm_compute in Hsize. discriminate Hsize.
  - by rewrite (format_size_raises_only_overflow _ _ Hsize).
Defined.

(** X8.  An exception raised before the loop, by the creation of the
    output directory or by the banner, is not handled: [main] stops
    there and the exception leaves it, so the exit status is 1, or 130
    for an interrupt.  Nothing of the two handlers is printed, no file
    is touched, and the only call made is that creation; when it is the
    creation of the directory that fails or is interrupted, nothing is
    printed at all. *)
Theorem startup_failure_is_not_handled E cfg gas fuel p e :
  snd (startup E cfg p) = Raise e ->
  main E cfg gas fuel p = startup E cfg p /\
  disk (fst (main E cfg gas fuel p)) = disk p /\
  calls (fst (main E cfg gas fuel p)) = calls p ++ [SysMkdir (OUTPUT_DIR cfg)] /\
  (verdict E (clock p) <> Proceed -> stdout (fst (main E cfg gas fuel p)) = stdout p) /\
  (exit_status (snd (main E cfg gas fuel p)) = Some 1 \/
   exit_status (snd (main E cfg gas fuel p)) = Some 130).
Proof.
  intros Hraise.
  assert (Hsame : main E cfg gas fuel p = startup E cfg p).
  { rewrite main_unfold. by destruct (startup E cfg p) as [q [[]|e'|]]. }
  rewrite Hsame, Hraise. split; [reflexivity|]. split; [apply startup_disk|].
  rewrite startup_unfold. cbv zeta. split; [|split].
  - destruct (verdict E (clock p)); [|reflexivity..].
    by destruct (format_size (INITIAL_FILE_SIZE cfg)).
  - by destruct (verdict E (clock p)).
  - destruct e; cbn; auto.
Qed.

Lemma startup_failure_is_not_handled_witness :
  let E := strike 0 (Fault "[Errno 13] Permission denied") in
  snd (startup E settings (boot ∅)) = Raise (OSError "[Errno 13] Permission denied") /\
  snd (main E settings 1 1 (boot ∅)) = Raise (OSError "[Errno 13] Permission denied") /\
  stdout (fst (main E settings 1 1 (boot ∅))) = [] /\
  exit_status (snd (main E settings 1 1 (boot ∅))) = Some 1.
Proof.
  intros E.
  assert (Hraise : snd (startup E settings (boot ∅))
                   = Raise (OSError "[Errno 13] Permission denied"))
    by (vm_compute; reflexivity).
  destruct (startup_failure_is_not_handled E settings 1 1 (boot ∅) _ Hraise) as (Hsame & _).
  split; [exact Hraise|]. rewrite Hsame. repeat split; vm_compute; reflexivity.
Defined.

(** X9.  [main] has no way to return but through one of its two
    handlers: when it returns, the start went through, the loop was
    stopped by an exception, and the last thing printed is the block of
    the handler of that exception. *)
Theorem main_returns_only_after_a_stop E cfg gas fuel p :
  snd (main E cfg gas fuel p) = Ret tt ->
  snd (startup E cfg p) = Ret tt /\
  exists e,
    snd (while_True E cfg gas fuel (entered E cfg p)) = Raise e /\
    let stopped := fst (while_True E cfg gas fuel (entered E cfg p)) in
    stdout (fst (main E cfg gas fuel p))
    = stdout stopped
        ++ match e with
           | KeyboardInterrupt => interrupt_block (vars stopped)
           | _ => error_block e (vars stopped)
           end.
Proof.
  intros Hret.
  assert (Hstart : snd (startup E cfg p) = Ret tt).
  { revert Hret. rewrite main_unfold.
    by destruct (startup E cfg p) as [q [[]|e|]]. }
  split; [exact Hstart|].
  revert Hret. rewrite (main_enters E cfg gas fuel p Hstart). unfold try_except.
  pose proof (while_True_endless E cfg gas fuel (entered E cfg p) tt) as Hendless.
  destruct (while_True E cfg gas fuel (entered E cfg p)) as [q [[]|e|]]; cbn [fst snd] in *;
    try discriminate; [congruence|].
  intros _. exists e. split; [reflexivity|].
  destruct e; cbn [handlers is_Exception]; rewrite ?on_interrupt_run, ?on_error_run;
    reflexivity.
Qed.

Lemma main_returns_only_after_a_stop_witness :
  snd (main (strike 38 Interrupt) settings 1 3 (boot ∅)) = Ret tt /\
  snd (startup (strike 38 Interrupt) settings (boot ∅)) = Ret tt.
Proof.
  assert (Hret : snd (main (strike 38 Interrupt) settings 1 3 (boot ∅)) = Ret tt)
    by (vm_compute; reflexivity).
  split; [exact Hret|].
  exact (proj1 (main_returns_only_after_a_stop _ _ _ _ _ Hret)).
Defined.

(** ** What a run prints *)

Section Reports.

Variable E : env.
Variable cfg : config.

Lemma report_of_reached k size elapsed total :
  [batch_line (next_batch (reached cfg k)) size;
   created_line (count_batch (next_batch (reached cfg k))) elapsed;
   totals_line (count_batch (next_batch (reached cfg k))) total; ""]
  = batch_report cfg (S k) size elapsed total.
Proof.
  unfold batch_report, batch_line, created_line, totals_line, planned_files.
  rewrite files_written_closed.
  cbn [next_batch count_batch reached batch num_files total_files].
  replace (Z.of_nat (S k) - 1) with (Z.of_nat k) by lia.
  replace (Z.of_nat k + 1) with (Z.of_nat (S k)) by lia.
  replace (INITIAL_FILES cfg * (2 ^ Z.of_nat k - 1) + INITIAL_FILES cfg * 2 ^ Z.of_nat k)
    with (INITIAL_FILES cfg * (2 ^ Z.of_nat (S k) - 1))
    by (rewrite (Nat2Z.inj_succ k), Z.pow_succ_r by lia; lia).
  reflexivity.
Qed.

Lemma batches_reports gas n :
  forall k p,
    vars p = reached cfg k ->
    snd (batches E cfg gas n p) = Ret tt ->
    exists blocks,
      stdout (fst (batches E cfg gas n p)) = stdout p ++ concat blocks /\
      Forall2 (fun j block =>
                 exists size elapsed total,
                   format_size (planned_size cfg j) = Val size /\
                   format_size (files_written cfg j * planned_size cfg j) = Val total /\
                   block = batch_report cfg j size elapsed total)
              (seq (S k) n) blocks.
Proof.
  induction n as [|n IH]; intros k p Hp; cbn [batches].
  - intros _. exists []. cbn. rewrite app_nil_r. split; [reflexivity | constructor].
  - rewrite bind_run.
    pose proof (loop_body_outcome E cfg gas p) as Hbody. cbv zeta in Hbody.
    destruct (loop_body E cfg gas p) as [q [[]|e|]]; cbn [fst snd] in *; try discriminate.
    destruct Hbody as (Hq & size & elapsed & total & Hsize & Htotal & Hout).
    rewrite Hp in Hq, Hsize, Htotal, Hout. rewrite step_reached in Hq.
    rewrite report_of_reached in Hout.
    intros Hret. destruct (IH (S k) q Hq Hret) as (blocks & Hrest & Hall).
    exists (batch_report cfg (S k) size elapsed total :: blocks).
    split.
    + rewrite Hrest, Hout. cbn [concat]. by rewrite <- app_assoc.
    + cbn [seq]. constructor; [|exact Hall].
      exists size, elapsed, total. repeat split.
      * rewrite <- Hsize. unfold planned_size. cbn [next_batch reached file_size].
        do 3 f_equal. lia.
      * rewrite <- Htotal, files_written_closed. unfold planned_size.
        cbn [next_batch count_batch reached file_size total_files num_files].
        f_equal. rewrite (Nat2Z.inj_succ k), Z.pow_succ_r by lia.
        replace (Z.succ (Z.of_nat k) - 1) with (Z.of_nat k) by lia. lia.
Qed.

End Reports.

(** X10.  What [n] complete batches print is [n] blocks of four lines,
    one block per batch in order: the announcement with the batch
    number, the number of files planned and their size as
    [format_size] shows it, the line of completion with the same number
    of files and a duration, the totals with the running number of
    files and [format_size] of that number times the size of a file of
    the batch, and an empty line. *)
Theorem batches_print_four_lines_each E cfg gas n p :
  vars p = initial cfg ->
  snd (batches E cfg gas n p) = Ret tt ->
  exists blocks,
    stdout (fst (batches E cfg gas n p)) = stdout p ++ concat blocks /\
    length blocks = n /\
    Forall2 (fun j block =>
               exists size elapsed total,
                 format_size (planned_size cfg j) = Val size /\
                 format_size (files_written cfg j * planned_size cfg j) = Val total /\
                 block = batch_report cfg j size elapsed total)
            (seq 1 n) blocks.
Proof.
  intros Hp Hret. rewrite initial_reached in Hp.
  destruct (batches_reports E cfg gas n 0 p Hp Hret) as (blocks & Hout & Hall).
  exists blocks. split; [exact Hout|]. split; [|exact Hall].
  apply Forall2_length in Hall. by rewrite length_seq in Hall.
Qed.

Lemma batches_print_four_lines_each_witness :
  vars (at_loop_entry settings) = initial settings /\
  snd (batches quiet settings 1 2 (at_loop_entry settings)) = Ret tt /\
  length (stdout (fst (batches quiet settings 1 2 (at_loop_entry settings)))) = 8%nat.
Proof.
  assert (Hret : snd (batches quiet settings 1 2 (at_loop_entry settings)) = Ret tt)
    by (vm_compute; reflexivity).
  split; [reflexivity|]. split; [exact Hret|].
  destruct (batches_print_four_lines_each quiet settings 1 2 (at_loop_entry settings)
              eq_refl Hret) as (blocks & -> & Hlen & Hall).
  destruct blocks as [|b1 [|b2 [|b3 blocks]]]; try discriminate Hlen.
  apply Forall2_cons_1 in Hall as [(s1 & e1 & t1 & _ & _ & ->) Hall].
  apply Forall2_cons_1 in Hall as [(s2 & e2 & t2 & _ & _ & ->) _].
  reflexivity.
Defined.

(** ** [format_size] at whole numbers of a unit *)

(** X11.  A size that is a whole number [k] of one of the units B, KB,
    MB, GB, TB, with [1 <= k < 1024], is shown as [k] with two zero
    decimals and that unit: 1024 bytes are "1.00 KB" and never
    "1024.00 B", and so on at each boundary. *)
Theorem format_size_whole_units u k :
  (u < 5)%nat ->
  1 <= k < 1024 ->
  format_size (k * 1024 ^ Z.of_nat u) = Val (Text.str k +:+ ".00 " +:+ nth u units "").
Proof.
  intros Hu Hk.
  assert (Hall : forall u', (u' < 5)%nat ->
            forallb (fun n => shown_as (Z.of_nat n * 1024 ^ Z.of_nat u')
                                       (Text.str (Z.of_nat n) +:+ ".00 " +:+ nth u' units ""))
                    (seq 1 1023) = true).
  { intros u' Hu'.
    destruct u' as [|[|[|[|[|u']]]]]; [vm_compute; reflexivity .. | lia]. }
  specialize (Hall u Hu). rewrite forallb_forall in Hall.
  specialize (Hall (Z.to_nat k)). rewrite Z2Nat.id in Hall by lia.
  unfold shown_as in Hall.
  destruct (format_size (k * 1024 ^ Z.of_nat u)) as [t|e].
  - f_equal. apply String.eqb_eq, Hall, in_seq. lia.
  - discriminate Hall. apply in_seq. lia.
Qed.

Lemma format_size_whole_units_witness :
  (3 < 5)%nat /\ 1 <= 1023 < 1024 /\
  format_size (1023 * 1024 ^ 3) = Val "1023.00 GB".
Proof.
  split; [lia|]. split; [lia|].
  apply (format_size_whole_units 3 1023); lia.
Defined.

(** X12.  There is no unit after PB: a whole number [k] of 1024^5
    bytes is shown as [k] PB also when [k] is 1024 or more. *)
Theorem format_size_petabytes_and_beyond k :
  1 <= k < 4096 ->
  format_size (k * 1024 ^ 5) = Val (Text.str k +:+ ".00 PB").
Proof.
  intros Hk.
  assert (Hall : forallb (fun n => shown_as (Z.of_nat n * 1024 ^ 5)
                                            (Text.str (Z.of_nat n) +:+ ".00 PB"))
                         (seq 1 4095) = true)
    by (vm_compute; reflexivity).
  rewrite forallb_forall in Hall.
  specialize (Hall (Z.to_nat k)). rewrite Z2Nat.id in Hall by lia.
  unfold shown_as in Hall.
  destruct (format_size (k * 1024 ^ 5)) as [t|e].
  - f_equal. apply String.eqb_eq, Hall, in_seq. lia.
  - discriminate Hall. apply in_seq. lia.
Qed.

Lemma format_size_petabytes_and_beyond_witness :
  1 <= 2048 < 4096 /\ format_size (2048 * 1024 ^ 5) = Val "2048.00 PB".
Proof.
  split; [lia|]. apply (format_size_petabytes_and_beyond 2048). lia.
Defined.

(** ** The order of the calls *)

Section Order.

Variable E : env.
Variable cfg : config.

Lemma opened_app a b : opened (a ++ b) = opened a ++ opened b.
Proof. unfold opened. apply omap_app. Qed.

Lemma opened_writes f ws : opened (map (fun w => SysWrite f (Z.to_nat w)) ws) = [].
Proof. induction ws as [|w ws IH]; [reflexivity | exact IH]. Qed.

Lemma create_file_opened gas f size p :
  opened (calls (fst (create_file E gas f size p))) = opened (calls p) ++ [f].
Proof.
  destruct (create_file_calls E gas f size p) as (ws & -> & _).
  change (SysOpen f :: ?l) with ([SysOpen f] ++ l).
  by rewrite !opened_app, opened_writes, app_nil_r.
Qed.

Lemma for_range_opened gas n :
  forall from p,
    snd (for_range from n (make_file E cfg gas) p) = Ret tt ->
    opened (calls (fst (for_range from n (make_file E cfg gas) p)))
    = opened (calls p)
        ++ map (fun i => file_path (OUTPUT_DIR cfg) (batch (vars p)) (from + Z.of_nat i))
               (seq 0 n).
Proof.
  induction n as [|n IH]; intros from p; cbn [for_range].
  - intros _. cbn. by rewrite app_nil_r.
  - rewrite bind_run, make_file_run.
    destruct (create_file_frame E gas (file_path (OUTPUT_DIR cfg) (batch (vars p)) from)
                (file_size (vars p)) p) as (Hv & _ & _).
    pose proof (create_file_opened gas (file_path (OUTPUT_DIR cfg) (batch (vars p)) from)
                  (file_size (vars p)) p) as Hopen.
    destruct (create_file E gas _ (file_size (vars p)) p) as [q [[]|e|]]; cbn [fst snd] in *;
      try discriminate.
    intros Hret. rewrite (IH (from + 1) q Hret), Hopen, Hv, <- app_assoc. f_equal.
    cbn [seq map app]. rewrite Z.add_0_r. f_equal.
    rewrite <- seq_shift, map_map. apply map_ext. intros i. f_equal. lia.
Qed.

Lemma loop_body_opened gas p :
  snd (loop_body E cfg gas p) = Ret tt ->
  opened (calls (fst (loop_body E cfg gas p)))
  = opened (calls p)
      ++ map (fun i => file_path (OUTPUT_DIR cfg) (batch (vars p) + 1) (Z.of_nat i))
             (seq 0 (Z.to_nat (num_files (vars p)))).
Proof.
  rewrite loop_body_unfold. cbv zeta.
  destruct (format_size (file_size (next_batch (vars p)))) as [size|e]; [|discriminate].
  destruct (verdict E (clock p)); [|discriminate..].
  match goal with |- context [for_range ?a ?n ?f ?q] =>
    pose proof (for_range_opened gas n a q) as Hfor;
    destruct (for_range a n f q) as [p2 r2] end.
  cbn [fst snd vars calls next_batch num_files batch] in Hfor.
  destruct r2 as [[]|e|]; try discriminate.
  destruct (verdict E (clock p2)); [|discriminate..].
  destruct (format_size _); [|discriminate].
  cbn [fst snd calls]. intros _. rewrite opened_app, (Hfor eq_refl). cbn. by rewrite app_nil_r.
Qed.

Lemma batches_opened gas n :
  forall k p,
    vars p = reached cfg k ->
    snd (batches E cfg gas n p) = Ret tt ->
    opened (calls (fst (batches E cfg gas n p)))
    = opened (calls p) ++ concat (map (batch_paths cfg) (seq (S k) n)).
Proof.
  induction n as [|n IH]; intros k p Hp; cbn [batches].
  - intros _. cbn. by rewrite app_nil_r.
  - rewrite bind_run.
    pose proof (loop_body_outcome E cfg gas p) as Hbody. cbv zeta in Hbody.
    pose proof (loop_body_opened gas p) as Hturn.
    destruct (loop_body E cfg gas p) as [q [[]|e|]]; cbn [fst snd] in *; try discriminate.
    destruct Hbody as [Hq _]. rewrite Hp, step_reached in Hq.
    intros Hret. rewrite (IH (S k) q Hq Hret), (Hturn eq_refl), Hp, <- app_assoc.
    f_equal. cbn [seq map concat]. f_equal.
    unfold batch_paths, planned_files. cbn [reached batch num_files].
    replace (Z.of_nat (S k) - 1) with (Z.of_nat k) by lia.
    replace (Z.of_nat k + 1) with (Z.of_nat (S k)) by lia. reflexivity.
Qed.

Lemma batch_paths_NoDup j : NoDup (batch_paths cfg j).
Proof.
  unfold batch_paths. apply NoDup_fmap_2_strong; [|apply NoDup_seq].
  intros a b _ _ Heq. apply file_path_inj in Heq. lia.
Qed.

Lemma batch_paths_batch j f :
  f ∈ batch_paths cfg j -> exists i, f = file_path (OUTPUT_DIR cfg) (Z.of_nat j) i.
Proof.
  unfold batch_paths. intros Hin. apply list_elem_of_fmap in Hin as (i & -> & _). eauto.
Qed.

Lemma all_paths_NoDup a n : NoDup (concat (map (batch_paths cfg) (seq a n))).
Proof.
  revert a. induction n as [|n IH]; intros a; cbn [seq map concat]; [constructor|].
  apply NoDup_app. split; [apply batch_paths_NoDup|]. split; [|apply IH].
  intros f Hhere Hlater. apply batch_paths_batch in Hhere as (i & ->).
  apply list_elem_of_In, in_concat in Hlater as (l & Hl & Hin).
  apply in_map_iff in Hl as (j & <- & Hj). apply in_seq in Hj.
  apply list_elem_of_In, batch_paths_batch in Hin as (i' & Heq).
  apply file_path_inj in Heq. lia.
Qed.

(** The handlers make no call. *)
Lemma handlers_clock e p : clock (fst (handlers e p)) = clock p.
Proof.
  destruct e; cbn [handlers is_Exception];
    rewrite ?on_interrupt_run, ?on_error_run; reflexivity.
Qed.

Lemma create_file_last_call gas f size p e :
  snd (create_file E gas f size p) = Raise e ->
  injected E (Nat.pred (clock (fst (create_file E gas f size p)))) e.
Proof.
  rewrite create_file_run. cbv zeta.
  destruct (verdict E (clock p)) eqn:Hverdict; cbn [fst snd clock].
  - destruct (Z_le_gt_dec size 0) as [Hdone|Hmore];
      [rewrite write_loop_done by lia; discriminate|].
    intros Hraise.
    apply (write_loop_raise E gas f _ (chunk_size_positive size ltac:(lia)) _ _ e Hraise).
  - intros [= <-]. left. auto.
  - intros [= <-]. right. eauto.
Qed.

Lemma for_range_last_call gas n :
  forall from p e,
    snd (for_range from n (make_file E cfg gas) p) = Raise e ->
    injected E (Nat.pred (clock (fst (for_range from n (make_file E cfg gas) p)))) e.
Proof.
  induction n as [|n IH]; intros from p e; cbn [for_range]; [discriminate|].
  rewrite bind_run, make_file_run.
  pose proof (create_file_last_call gas (file_path (OUTPUT_DIR cfg) (batch (vars p)) from)
                (file_size (vars p)) p) as Hfile.
  destruct (create_file E gas _ (file_size (vars p)) p) as [q [[]|e'|]]; cbn [fst snd] in *;
    try discriminate.
  - apply IH.
  - intros [= ->]. by apply Hfile.
Qed.

Lemma loop_body_last_call gas p e :
  snd (loop_body E cfg gas p) = Raise e ->
  e = too_large \/ injected E (Nat.pred (clock (fst (loop_body E cfg gas p)))) e.
Proof.
  rewrite loop_body_unfold. cbv zeta.
  destruct (format_size (file_size (next_batch (vars p)))) as [size|e'] eqn:Hsize;
    [|cbn [snd]; intros [= ->]; left; by apply format_size_exc in Hsize].
  destruct (verdict E (clock p)) eqn:Hfirst; cbn [fst snd clock Nat.pred];
    [| intros [= <-]; right; left; auto | intros [= <-]; right; right; eauto].
  match goal with |- context [for_range ?a ?n ?f ?q] =>
    pose proof (for_range_last_call gas n a q) as Hfor;
    destruct (for_range a n f q) as [p2 r2] end.
  cbn [fst snd] in Hfor.
  destruct r2 as [[]|e'|]; cbn [fst snd]; try discriminate;
    [|intros [= ->]; right; by apply Hfor].
  destruct (verdict E (clock p2)) eqn:Hsecond; cbn [fst snd clock Nat.pred];
    [| intros [= <-]; right; left; auto | intros [= <-]; right; right; eauto].
  destruct (format_size (_ * _)) as [total|e'] eqn:Htotal; cbn [fst snd clock];
    [|intros [= ->]; left; by apply format_size_exc in Htotal].
  destruct (verdict E (S (clock p2))) eqn:Hverdict; try discriminate.
  - intros [= <-]. right. left. auto.
  - intros [= <-]. right. right. eauto.
Qed.

End Order.

(** X13.  There is no retry and nothing is skipped: when an interrupt
    or a failed call stops the loop, that call is the last one the
    process makes; [main] attempts nothing after it, it only prints. *)
Theorem a_failed_call_is_the_last_call E cfg gas fuel p e :
  snd (startup E cfg p) = Ret tt ->
  snd (while_True E cfg gas fuel (entered E cfg p)) = Raise e ->
  calls (fst (main E cfg gas fuel p))
  = calls (fst (while_True E cfg gas fuel (entered E cfg p))) /\
  (e = too_large \/ injected E (Nat.pred (clock (fst (main E cfg gas fuel p)))) e).
Proof.
  intros Hstart Hstop.
  destruct (main_after_stop E cfg gas fuel p e Hstart Hstop) as (_ & _ & Hcalls & _).
  split; [exact Hcalls|].
  destruct (while_True_stop_point E cfg gas fuel _ e Hstop) as (k & _ & _ & Hturn).
  assert (Hclock : clock (fst (main E cfg gas fuel p))
                   = clock (fst (while_True E cfg gas fuel (entered E cfg p)))).
  { rewrite (main_enters E cfg gas fuel p Hstart). unfold try_except.
    destruct (while_True E cfg gas fuel (entered E cfg p)) as [q r]; cbn [fst snd] in *.
    subst r. apply handlers_clock. }
  rewrite Hclock.
  pose proof (loop_body_last_call E cfg gas _ e ltac:(by rewrite Hturn)) as Hlast.
  by rewrite Hturn in Hlast.
Qed.

Lemma a_failed_call_is_the_last_call_witness :
  let E := strike 3 (Fault "[Errno 28] No space left on device") in
  snd (startup E settings (boot ∅)) = Ret tt /\
  snd (while_True E settings 1 1 (entered E settings (boot ∅)))
  = Raise (OSError "[Errno 28] No space left on device") /\
  length (calls (fst (main E settings 1 1 (boot ∅)))) = 3%nat.
Proof.
  intros E.
  assert (Hstart : snd (startup E settings (boot ∅)) = Ret tt) by (vm_compute; reflexivity).
  assert (Hstop : snd (while_True E settings 1 1 (entered E settings (boot ∅)))
                  = Raise (OSError "[Errno 28] No space left on device"))
    by (vm_compute; reflexivity).
  split; [exact Hstart|]. split; [exact Hstop|].
  rewrite (proj1 (a_failed_call_is_the_last_call E settings 1 1 (boot ∅) _ Hstart Hstop)).
  vm_compute. reflexivity.
Defined.

(** X14.  In [n] complete batches the files are opened batch after
    batch and, inside a batch, in the order of their indices from 0;
    each file is opened once, so that no file of the run is written
    over by a later one. *)
Theorem files_are_opened_once_in_order E cfg gas n p :
  vars p = initial cfg ->
  snd (batches E cfg gas n p) = Ret tt ->
  opened (calls (fst (batches E cfg gas n p)))
  = opened (calls p) ++ concat (map (batch_paths cfg) (seq 1 n)) /\
  NoDup (concat (map (batch_paths cfg) (seq 1 n))).
Proof.
  intros Hp Hret. rewrite initial_reached in Hp.
  split; [by apply batches_opened | apply all_paths_NoDup].
Qed.

Lemma files_are_opened_once_in_order_witness :
  vars (at_loop_entry settings) = initial settings /\
  snd (batches quiet settings 1 1 (at_loop_entry settings)) = Ret tt /\
  opened (calls (fst (batches quiet settings 1 1 (at_loop_entry settings))))
  = ["generated_files/batch_0001_file_000000.dat";
     "generated_files/batch_0001_file_000001.dat";
     "generated_files/batch_0001_file_000002.dat";
     "generated_files/batch_0001_file_000003.dat";
     "generated_files/batch_0001_file_000004.dat"].
Proof.
  assert (Hret : snd (batches quiet settings 1 1 (at_loop_entry settings)) = Ret tt)
    by (vm_compute; reflexivity).
  split; [reflexivity|]. split; [exact Hret|].
  rewrite (proj1 (files_are_opened_once_in_order quiet settings 1 1 (at_loop_entry settings)
                    eq_refl Hret)).
  vm_compute. reflexivity.
Defined.

(** ** What the total counts at a stop *)

Section Counting.

Variable E : env.
Variable cfg : config.

(** However a turn ends, the total counts the files of its batch only
    once the [for] loop has created them all. *)
Lemma loop_body_counted gas p :
  let v := next_batch (vars p) in
  let R := loop_body E cfg gas p in
  vars (fst R) = v \/
  ((vars (fst R) = count_batch v \/ vars (fst R) = double (count_batch v)) /\
   forall i, 0 <= i < num_files (vars p) ->
     exists content,
       disk (fst R) !! file_path (OUTPUT_DIR cfg) (batch (vars p) + 1) i = Some content /\
       length content = Z.to_nat (file_size (vars p))).
Proof.
  cbv zeta. rewrite loop_body_unfold. cbv zeta.
  destruct (format_size (file_size (next_batch (vars p)))) as [size|e]; [|by left].
  destruct (verdict E (clock p)); [|by left..].
  match goal with |- context [for_range ?a ?n ?f ?q] =>
    destruct (for_range_frame E cfg gas n a q) as [Hv _];
    pose proof (for_range_files E cfg gas n a q) as Hfor;
    destruct (for_range a n f q) as [p2 r2] end.
  cbn [fst snd vars disk next_batch batch num_files file_size] in Hv, Hfor.
  destruct r2 as [[]|e|]; [|by left..].
  destruct (verdict E (clock p2)); [|by left..].
  right. rewrite Hv.
  assert (Hfiles : forall i, 0 <= i < num_files (vars p) ->
            exists content,
              disk p2 !! file_path (OUTPUT_DIR cfg) (batch (vars p) + 1) i = Some content /\
              length content = Z.to_nat (file_size (vars p))).
  { intros i Hi. apply (Hfor eq_refl). lia. }
  destruct (format_size (_ * _)); cbn [fst vars disk]; auto.
Qed.

End Counting.

(** X15.  When an exception stops the loop, the total the handlers
    print counts complete batches only.  If the batch counter stands at
    [k + 1], the total is the number of files of the first [k] batches
    or of the first [k + 1]; and every file the total counts is on the
    disk with its planned size when [main] returns.  So the batch that
    was running is counted only once all its files were created, and a
    file of a batch cut short is never counted. *)
Theorem a_stop_counts_complete_batches_only E cfg gas fuel p e :
  snd (startup E cfg p) = Ret tt ->
  snd (while_True E cfg gas fuel (entered E cfg p)) = Raise e ->
  exists k m, (k < fuel)%nat /\
    batch (vars (fst (main E cfg gas fuel p))) = Z.of_nat (S k) /\
    (m = k \/ m = S k) /\
    total_files (vars (fst (main E cfg gas fuel p))) = files_written cfg m /\
    forall j i, (1 <= j <= m)%nat -> 0 <= i < planned_files cfg j ->
      exists content,
        disk (fst (main E cfg gas fuel p))
          !! file_path (OUTPUT_DIR cfg) (Z.of_nat j) i = Some content /\
        length content = Z.to_nat (planned_size cfg j).
Proof.
  intros Hstart Hstop.
  destruct (main_after_stop E cfg gas fuel p e Hstart Hstop) as (_ & Hdisk & _ & Hvars).
  destruct (while_True_stop_point E cfg gas fuel _ e Hstop) as (k & Hk & Hret & Hturn).
  pose proof (entered_vars E cfg p Hstart) as Hentered.
  rewrite initial_reached in Hentered.
  pose proof (batches_outcome E cfg gas k 0 _ Hentered) as Hout. rewrite Hret in Hout.
  cbn [Nat.add] in Hout.
  pose proof (batches_files E cfg gas k 0 _ Hentered Hret) as Hbefore.
  set (q := fst (batches E cfg gas k (entered E cfg p))) in *.
  rewrite Hdisk, Hvars.
  replace (fst (while_True E cfg gas fuel (entered E cfg p)))
    with (fst (loop_body E cfg gas q)) by (by rewrite Hturn).
  assert (Hkept : forall j i, (1 <= j <= k)%nat -> 0 <= i < planned_files cfg j ->
            exists content,
              disk (fst (loop_body E cfg gas q))
                !! file_path (OUTPUT_DIR cfg) (Z.of_nat j) i = Some content /\
              length content = Z.to_nat (planned_size cfg j)).
  { intros j i Hj Hi. destruct (Hbefore j i ltac:(lia) Hi) as (content & Hfile & Hlen).
    exists content. split; [|exact Hlen].
    rewrite loop_body_untouched; [exact Hfile|].
    intros i' Heq. rewrite Hout in Heq. cbn [reached batch] in Heq.
    apply file_path_inj in Heq. lia. }
  pose proof (loop_body_counted E cfg gas q) as Hcounted. cbv zeta in Hcounted.
  rewrite Hout in Hcounted.
  assert (Hpow : 2 ^ Z.of_nat (S k) = 2 * 2 ^ Z.of_nat k)
    by (rewrite Nat2Z.inj_succ, Z.pow_succ_r; lia).
  destruct Hcounted as [Hv | [Hv Hfiles]].
  - exists k, k. split; [exact Hk|]. rewrite Hv, files_written_closed.
    cbn [next_batch reached batch total_files].
    split; [lia|]. split; [by left|]. split; [reflexivity | exact Hkept].
  - exists k, (S k). split; [exact Hk|]. split; [|split; [by right|split]].
    + destruct Hv as [-> | ->]; cbn [double count_batch next_batch reached batch]; lia.
    + rewrite files_written_closed, Hpow.
      destruct Hv as [-> | ->];
        cbn [double count_batch next_batch reached total_files num_files]; lia.
    + intros j i Hj Hi. destruct (Nat.eq_dec j (S k)) as [->|Hne];
        [|apply Hkept; [lia | exact Hi]].
      cbn [reached batch num_files file_size] in Hfiles.
      unfold planned_files, planned_size in *.
      replace (Z.of_nat (S k) - 1) with (Z.of_nat k) in * by lia.
      destruct (Hfiles i Hi) as (content & Hfile & Hlen).
      exists content. split; [|exact Hlen].
      rewrite <- Hfile. do 2 f_equal. lia.
Qed.

Lemma a_stop_counts_complete_batches_only_witness :
  let E := strike 13 Interrupt in
  snd (startup E settings (boot ∅)) = Ret tt /\
  snd (while_True E settings 1 3 (entered E settings (boot ∅))) = Raise KeyboardInterrupt /\
  batch (vars (fst (main E settings 1 3 (boot ∅)))) = 1 /\
  total_files (vars (fst (main E settings 1 3 (boot ∅)))) = 5 /\
  exists content,
    disk (fst (main E settings 1 3 (boot ∅))) !! file_path "generated_files" 1 4
    = Some content /\
    length content = 1024%nat.
Proof.
  intros E.
  assert (Hstart : snd (startup E settings (boot ∅)) = Ret tt) by (vm_compute; reflexivity).
  assert (Hstop : snd (while_True E settings 1 3 (entered E settings (boot ∅)))
                  = Raise KeyboardInterrupt)
    by (vm_compute; reflexivity).
  assert (Hbatch : batch (vars (fst (main E settings 1 3 (boot ∅)))) = 1)
    by (vm_compute; reflexivity).
  assert (Htotal : total_files (vars (fst (main E settings 1 3 (boot ∅)))) = 5)
    by (vm_compute; reflexivity).
  split; [exact Hstart|]. split; [exact Hstop|]. split; [exact Hbatch|].
  split; [exact Htotal|].
  destruct (a_stop_counts_complete_batches_only E settings 1 3 (boot ∅) _ Hstart Hstop)
    as (k & m & _ & Hk & Hm & Hcount & Hfiles).
  rewrite Hbatch in Hk. assert (k = 0%nat) as -> by lia.
  rewrite Htotal in Hcount.
  assert (m = 1%nat) as -> by (destruct Hm as [-> | ->]; [vm_compute in Hcount; lia | done]).
  destruct (Hfiles 1%nat 4) as (content & Hfile & Hlen).
  - lia.
  - unfold planned_files. cbn. lia.
  - exists content. split; [exact Hfile | exact Hlen].
Defined.
